(** * sgnlp / senticnet_gcn / utils.py: data preparation for SenticNet-GCN

    A shallow embedding of [src/sgnlp/models/senticnet_gcn/utils.py]:
    the embedding-matrix builder, the dataset container, the bucket
    iterator (sorting, padding, shuffled traversal) and the dataset
    reader, followed by the properties of the specification that were
    checked against them.

    Conventions of the embedding.
    - Python exceptions are values of [exn]; a computation that may raise
      has type [result A].
    - Python [int] is [Z]; a Python [str] is a [string] (the ASCII part of
      the character set: case folding and white space are the ASCII ones).
    - A [BatchEncoding] is a dictionary from field names to sequences; the
      encodings are mutable objects that live in a store ([heap]) and are
      referred to by location, because [pad_batch_encoding] updates its
      argument in place and returns that same object. *)

From Stdlib Require Import ZArith List Ascii String Permutation Sorted Lia Bool.
From stdpp Require Import gmap strings list fin_maps.

Open Scope Z_scope.

(** ** Exceptions and fallible computations *)

Inductive exn : Type :=
| IndexError
| KeyError
| ValueError
| TypeError
| ZeroDivisionError
| Dangling. (* not a Python exception: a location that the store does not
               hold; no run of the program produces one *)

Inductive result (A : Type) : Type :=
| Ok (a : A)
| Raise (e : exn).

Arguments Ok {A} a.
Arguments Raise {A} e.

Definition rbind {A B : Type} (r : result A) (k : A -> result B) : result B :=
  match r with
  | Ok a => k a
  | Raise e => Raise e
  end.

Notation "'let?' x ':=' r 'in' k" := (rbind r (fun x => k))
  (at level 10, x pattern, r at level 100, k at level 200).

(** ** Python sequences *)

Module Py.

(** [l[i]] for a Python list: indices [0 .. n-1] count from the front,
    [-n .. -1] from the back, anything else raises [IndexError]. *)
Definition getitem {A : Type} (l : list A) (i : Z) : result A :=
  let n := Z.of_nat (length l) in
  let j := if i <? 0 then i + n else i in
  if (j <? 0) || (n <=? j) then Raise IndexError
  else match l !! Z.to_nat j with
       | Some x => Ok x
       | None => Raise IndexError
       end.

(** [l[lo:hi]] for non-negative bounds: positions [lo .. hi-1] that exist. *)
Definition slice {A : Type} (l : list A) (lo hi : nat) : list A :=
  firstn (hi - lo) (skipn lo l).

(** [range(start, stop, step)] for a positive [step] *)
Definition range (start stop step : Z) : list Z :=
  map (fun k => start + Z.of_nat k * step)
      (seq 0 (Z.to_nat ((stop - start + step - 1) / step))).

(** [d[k]] for a dictionary *)
Definition dict_getitem {K : Type} `{Countable K} {V : Type}
    (d : gmap K V) (k : K) : result V :=
  match d !! k with
  | Some v => Ok v
  | None => Raise KeyError
  end.

End Py.

(** ** ABSADataset *)

Module ABSADataset.

Section Container.
Context {Example : Type}.

(** [class ABSADataset]: the object holds the list it was built over. *)
Record t : Type := mk { data : list Example }.

(** [__init__(self, data)] *)
Definition __init__ (d : list Example) : t := mk d.

(** [__getitem__(self, index)]: [self.data[index]] *)
Definition __getitem__ (self : t) (index : Z) : result Example :=
  Py.getitem (data self) index.

(** [__len__(self)]: [len(self.data)] *)
Definition __len__ (self : t) : Z := Z.of_nat (length (data self)).

(** [for x in self]: the class has no [__iter__], so iteration asks
    [__getitem__] for the indices 0, 1, 2, ... and ends at the first
    [IndexError]; any other exception goes through. The elements from
    [index] on; [None] when [fuel] requests do not reach the end. *)
Fixpoint iterate (fuel : nat) (self : t) (index : Z)
  : option (result (list Example)) :=
  match fuel with
  | O => None
  | S fuel' =>
      match __getitem__ self index with
      | Ok x =>
          match iterate fuel' self (index + 1) with
          | Some (Ok xs) => Some (Ok (x :: xs))
          | other => other
          end
      | Raise IndexError => Some (Ok [])
      | Raise e => Some (Raise e)
      end
  end.

End Container.

Arguments t : clear implicits.

End ABSADataset.

(** ** Python strings *)

Module Str.

(** [c.isspace()] for an ASCII character: TAB, LF, VT, FF, CR, the four
    separators FS GS RS US, and the space. *)
Definition isspace (c : ascii) : bool :=
  let n := nat_of_ascii c in
  ((9 <=? n) && (n <=? 13) || (28 <=? n) && (n <=? 32))%nat.

Definition lower_char (c : ascii) : ascii :=
  let n := nat_of_ascii c in
  if ((65 <=? n) && (n <=? 90))%nat then ascii_of_nat (n + 32) else c.

(** [s.lower()] *)
Fixpoint lower (s : string) : string :=
  match s with
  | EmptyString => EmptyString
  | String c s' => String (lower_char c) (lower s')
  end.

Fixpoint lstrip (s : string) : string :=
  match s with
  | EmptyString => EmptyString
  | String c s' => if isspace c then lstrip s' else s
  end.

Fixpoint rev_onto (s acc : string) : string :=
  match s with
  | EmptyString => acc
  | String c s' => rev_onto s' (String c acc)
  end.

Definition rev (s : string) : string := rev_onto s EmptyString.

Definition rstrip (s : string) : string := rev (lstrip (rev s)).

(** [s.strip()] *)
Definition strip (s : string) : string := lstrip (rstrip s).

(** [s.split()]: the maximal runs of non-space characters, in order.
    [cur] holds the characters of the run being read, last one first. *)
Fixpoint split_from (cur : string) (s : string) : list string :=
  match s with
  | EmptyString =>
      match cur with EmptyString => [] | _ => [rev cur] end
  | String c s' =>
      if isspace c
      then match cur with
           | EmptyString => split_from EmptyString s'
           | _ => rev cur :: split_from EmptyString s'
           end
      else split_from (String c cur) s'
  end.

Definition split (s : string) : list string := split_from EmptyString s.

(** [sep.join(l)] *)
Definition join (sep : string) (l : list string) : string := String.concat sep l.

Fixpoint drop (n : nat) (s : string) : string :=
  match n, s with
  | O, _ => s
  | S n', String _ s' => drop n' s'
  | S _, EmptyString => EmptyString
  end.

(** The first occurrence of [sep] in [s]: what precedes it and what
    follows it. *)
Fixpoint find (sep s : string) : option (string * string) :=
  if String.prefix sep s then Some (EmptyString, drop (String.length sep) s)
  else match s with
       | EmptyString => None
       | String c s' =>
           match find sep s' with
           | Some (a, b) => Some (String c a, b)
           | None => None
           end
       end.

(** [s.partition(sep)] for a non-empty [sep] *)
Definition partition (s sep : string) : string * string * string :=
  match find sep s with
  | Some (a, b) => (a, sep, b)
  | None => (s, EmptyString, EmptyString)
  end.

Definition digit (c : ascii) : option Z :=
  let n := nat_of_ascii c in
  if ((48 <=? n) && (n <=? 57))%nat then Some (Z.of_nat (n - 48)) else None.

(** Decimal digits, where single underscores may separate two digits. *)
Fixpoint digits (acc : Z) (after_digit : bool) (s : string) : option Z :=
  match s with
  | EmptyString => if after_digit then Some acc else None
  | String c s' =>
      match digit c with
      | Some d => digits (10 * acc + d) true s'
      | None =>
          if Ascii.eqb c "_"%char && after_digit then digits acc false s'
          else None
      end
  end.

(** [int(s)]: surrounding white space, an optional sign, decimal digits;
    [ValueError] otherwise. *)
Definition int (s : string) : result Z :=
  let body (t : string) : result Z :=
    match digits 0 false t with Some z => Ok z | None => Raise ValueError end in
  match strip s with
  | String "-"%char t => let? z := body t in Ok (- z)
  | String "+"%char t => body t
  | t => body t
  end.

End Str.

(** ** Embedding matrix builder *)

Section EmbeddingMatrix.

(** The floating-point numbers of the matrix are kept abstract: [scalar]
    with its [zero], [float32 tok] for the value that
    [np.asarray([tok], dtype="float32")] holds ([None] when [tok] is not a
    float literal: [ValueError]), and [uniform d] for the row that
    [np.random.uniform(-1/sqrt(d), 1/sqrt(d), (1, d))] returned. *)
Context {scalar : Type}.
Variable zero : scalar.
Variable float32 : string -> option scalar.
Variable uniform : nat -> list scalar.

(** [tokens[:-d]] *)
Definition all_but_last (d : nat) (tokens : list string) : list string :=
  match d with
  | O => []
  | _ => firstn (length tokens - d) tokens
  end.

(** [tokens[-d:]] *)
Definition last_tokens (d : nat) (tokens : list string) : list string :=
  match d with
  | O => tokens
  | _ => skipn (length tokens - d) tokens
  end.

(** [np.asarray(vec, dtype="float32")] *)
Fixpoint asarray (vec : list string) : result (list scalar) :=
  match vec with
  | [] => Ok []
  | tok :: vec' =>
      match float32 tok with
      | None => Raise ValueError
      | Some x => let? xs := asarray vec' in Ok (x :: xs)
      end
  end.

(** [word in vocab.keys()] *)
Definition in_vocab (word : string) (vocab : list (string * Z)) : bool :=
  existsb (fun kv => String.eqb word (fst kv)) vocab.

(** [load_word_vec]: the vector file is the list of its lines; the
    vocabulary is the list of its items in the dictionary's order. *)
Fixpoint load_word_vec_from (word_vec : gmap string (list scalar))
    (fin : list string) (vocab : list (string * Z)) (embed_dim : nat)
  : result (gmap string (list scalar)) :=
  match fin with
  | [] => Ok word_vec
  | line :: fin' =>
      let tokens := Str.split (Str.rstrip line) in
      let word := Str.join " " (all_but_last embed_dim tokens) in
      let vec := last_tokens embed_dim tokens in
      if in_vocab word vocab
      then let? a := asarray vec in
           load_word_vec_from (<[word := a]> word_vec) fin' vocab embed_dim
      else load_word_vec_from word_vec fin' vocab embed_dim
  end.

Definition load_word_vec (fin : list string) (vocab : list (string * Z))
    (embed_dim : nat) : result (gmap string (list scalar)) :=
  load_word_vec_from ∅ fin vocab embed_dim.

(** [m[idx] = vec] on a two-dimensional array with rows of length [d]:
    the index follows the list convention, the vector must have [d]
    entries or one entry (which is then repeated). *)
Definition set_row (d : nat) (m : list (list scalar)) (idx : Z)
    (vec : list scalar) : result (list (list scalar)) :=
  let n := Z.of_nat (length m) in
  let j := if idx <? 0 then idx + n else idx in
  if (j <? 0) || (n <=? j) then Raise IndexError
  else if Nat.eqb (length vec) d then Ok (<[Z.to_nat j := vec]> m)
  else match vec with
       | [x] => Ok (<[Z.to_nat j := repeat x d]> m)
       | _ => Raise ValueError
       end.

(** The loop [for word, idx in vocab.items()] *)
Fixpoint fill_rows (d : nat) (word_vec : gmap string (list scalar))
    (items : list (string * Z)) (m : list (list scalar))
  : result (list (list scalar)) :=
  match items with
  | [] => Ok m
  | (word, idx) :: items' =>
      match word_vec !! word with
      | Some vec => let? m' := set_row d m idx vec in
                    fill_rows d word_vec items' m'
      | None => fill_rows d word_vec items' m
      end
  end.

(** [build_embedding_matrix] with [save_embed_matrix=False] (writing the
    matrix to a file does not change the value returned). The dimension
    is a natural number: [np.zeros] refuses a negative one. *)
Definition build_embedding_matrix (fin : list string)
    (vocab : list (string * Z)) (embed_dim : nat)
  : result (list (list scalar)) :=
  let embedding_matrix := repeat (repeat zero embed_dim) (length vocab) in
  let? embedding_matrix := set_row embed_dim embedding_matrix 1 (uniform embed_dim) in
  let? word_vec := load_word_vec fin vocab embed_dim in
  fill_rows embed_dim word_vec vocab embedding_matrix.

End EmbeddingMatrix.

(** ** Arrays, encodings and the store *)

Section NdArray.
Context {scalar : Type}.

(** A two-dimensional [np.ndarray]: its shape and its entries. *)
Record ndarray : Type := mk_ndarray {
  rows : nat;
  cols : nat;
  entry : nat -> nat -> scalar
}.

(** [np.pad(a, ((0, after0), (0, after1)), "constant")]: a negative width
    is refused with [ValueError]; the new cells hold zero. *)
Definition np_pad (zero : scalar) (a : ndarray) (after0 after1 : Z)
  : result ndarray :=
  if (after0 <? 0) || (after1 <? 0) then Raise ValueError
  else Ok {| rows := rows a + Z.to_nat after0;
             cols := cols a + Z.to_nat after1;
             entry := fun i j =>
               if ((i <? rows a) && (j <? cols a))%nat then entry a i j
               else zero |}.
(** [a.shape] *)
Definition shape (a : ndarray) : nat * nat := (rows a, cols a).
End NdArray.

Arguments ndarray : clear implicits.

(** The value of one field of a [BatchEncoding]: the tokenizer gives Python
    lists, padding replaces them by tensors. *)
Inductive seq_value : Type :=
| PyList (l : list Z)
| Tensor (l : list Z).

Definition len (v : seq_value) : Z :=
  match v with
  | PyList l | Tensor l => Z.of_nat (length l)
  end.

(** [v + pad] where [pad] is a list: list concatenation; a tensor does not
    add to a list ([TypeError]). *)
Definition add_list (v : seq_value) (pad : list Z) : result (list Z) :=
  match v with
  | PyList l => Ok (l ++ pad)
  | Tensor _ => Raise TypeError
  end.

(** [[x] * k] *)
Definition times (x : Z) (k : Z) : list Z := repeat x (Z.to_nat k).

Abbreviation encoding := (gmap string seq_value).
Abbreviation loc := nat (only parsing).
(** The store of the [BatchEncoding] objects; a location is a position. *)
Abbreviation heap := (list (gmap string seq_value)).

(** [data[key]] for the encoding at [data] *)
Definition enc_getitem (h : heap) (data : loc) (key : string) : result seq_value :=
  match h !! data with
  | None => Raise Dangling
  | Some enc =>
      match enc !! key with
      | Some v => Ok v
      | None => Raise KeyError
      end
  end.

(** [data[key] = v] for the encoding at [data] *)
Definition enc_setitem (h : heap) (data : loc) (key : string) (v : seq_value)
  : result heap :=
  match h !! data with
  | None => Raise Dangling
  | Some enc => Ok (<[data := <[key := v]> enc]> h)
  end.

(** The object that the tokenizer returns is a new one. *)
Definition alloc (h : heap) (enc : encoding) : loc * heap :=
  (length h, h ++ [enc]).

(** ** Examples and batches *)

(** One example: the dictionary that the reader builds, with its seven
    keys. The four tokenized fields refer to encodings in the store. *)
Module Item.
Section Item.
Context {scalar : Type}.

Record t : Type := mk {
  text_indices : loc;
  context_indices : loc;
  aspect_indices : loc;
  left_indices : loc;
  polarity : Z;
  dependency_graph : ndarray scalar;
  dependency_tree : ndarray scalar
}.

Inductive value : Type :=
| Enc (l : loc)
| Int (z : Z)
| Arr (a : ndarray scalar).

(** [item[key]] *)
Definition getitem (item : t) (key : string) : result value :=
  if String.eqb key "text_indices" then Ok (Enc (text_indices item))
  else if String.eqb key "context_indices" then Ok (Enc (context_indices item))
  else if String.eqb key "aspect_indices" then Ok (Enc (aspect_indices item))
  else if String.eqb key "left_indices" then Ok (Enc (left_indices item))
  else if String.eqb key "polarity" then Ok (Int (polarity item))
  else if String.eqb key "dependency_graph" then Ok (Arr (dependency_graph item))
  else if String.eqb key "dependency_tree" then Ok (Arr (dependency_tree item))
  else Raise KeyError.

(** [len(v)] for a value of the dictionary: the number of entries of an
    encoding, the first dimension of an array; an integer has none. *)
Definition len_value (h : heap) (v : value) : result Z :=
  match v with
  | Enc l =>
      match h !! l with
      | Some enc => Ok (Z.of_nat (size enc))
      | None => Raise Dangling
      end
  | Int _ => Raise TypeError
  | Arr a => Ok (Z.of_nat (rows a))
  end.

(** [v["input_ids"]] and the like *)
Definition subscript (h : heap) (v : value) (key : string) : result seq_value :=
  match v with
  | Enc l => enc_getitem h l key
  | Int _ => Raise TypeError
  | Arr _ => Raise IndexError
  end.
End Item.
Arguments t : clear implicits.
Arguments value : clear implicits.
End Item.

(** One batch: the dictionary that [pad_data] returns. *)
Module Batch.
Record t {scalar : Type} : Type := mk {
  text_indices : list loc;
  context_indices : list loc;
  aspect_indices : list loc;
  left_indices : list loc;
  polarity : list Z;
  dependency_graph : list (ndarray scalar);
  dependency_tree : list (ndarray scalar)
}.
Arguments t : clear implicits.
End Batch.

(** ** random.shuffle *)

Module Random.
Section Random.
(** The generator's draws are a sequence [source]; its state is the
    number of draws made so far. *)
Variable source : nat -> nat.

(** [randbelow(n)] for [n > 0] *)
Definition randbelow (n : nat) (drawn : nat) : nat * nat :=
  ((source drawn) mod n, S drawn)%nat.

(** [x[i], x[j] = x[j], x[i]] *)
Definition swap {A : Type} (x : list A) (i j : nat) : list A :=
  match x !! i, x !! j with
  | Some a, Some b => <[j := a]> (<[i := b]> x)
  | _, _ => x
  end.

(** The loop [for i in reversed(range(1, len(x)))], entered at [i]. *)
Fixpoint shuffle_from {A : Type} (i : nat) (x : list A) (drawn : nat)
  : list A * nat :=
  match i with
  | O => (x, drawn)
  | S i' =>
      let '(j, drawn') := randbelow (S i) drawn in
      shuffle_from i' (swap x i j) drawn'
  end.

(** [random.shuffle(x)]: the list after the call *)
Definition shuffle {A : Type} (x : list A) (drawn : nat) : list A * nat :=
  shuffle_from (length x - 1) x drawn.
End Random.
End Random.

(** ** BucketIterator *)

Module BucketIterator.
Section BucketIterator.
Context {scalar : Type}.
Variable zero : scalar.

(** [pad_batch_encoding(self, data, max_len)]: the encoding at [data] is
    updated in place and [data] itself is returned. *)
Definition pad_batch_encoding (data : loc) (max_len : Z) (h : heap)
  : result (loc * heap) :=
  let? ids := enc_getitem h data "input_ids" in
  let input_ids_pad := times 0 (max_len - len ids) in
  let token_type_ids_pad := input_ids_pad in
  let? mask := enc_getitem h data "attention_mask" in
  let attention_mask_pad := times 1 (max_len - len mask) in
  let? ids := enc_getitem h data "input_ids" in
  let? padded := add_list ids input_ids_pad in
  let? h := enc_setitem h data "input_ids" (Tensor padded) in
  let? types := enc_getitem h data "token_type_ids" in
  let? padded := add_list types token_type_ids_pad in
  let? h := enc_setitem h data "token_type_ids" (Tensor padded) in
  let? mask := enc_getitem h data "attention_mask" in
  let? padded := add_list mask attention_mask_pad in
  let? h := enc_setitem h data "attention_mask_pad" (Tensor padded) in
  Ok (data, h).

(** [[len(t[self.sort_key]["input_ids"]) for t in batch_data]] *)
Fixpoint key_lengths (sort_key : string) (h : heap)
    (batch_data : list (Item.t scalar)) : result (list Z) :=
  match batch_data with
  | [] => Ok []
  | t :: rest =>
      let? v := Item.getitem t sort_key in
      let? ids := Item.subscript h v "input_ids" in
      let? ns := key_lengths sort_key h rest in
      Ok (len ids :: ns)
  end.

(** [max(l)]: [ValueError] on the empty list *)
Definition py_max (l : list Z) : result Z :=
  match l with
  | [] => Raise ValueError
  | x :: l' => Ok (fold_left Z.max l' x)
  end.

(** [pad_data(self, batch_data)]. The [return] statement is the last
    statement of the body of [for item in batch_data], so the first
    iteration ends the call: the items after the first are not
    visited. With no item at all, [max] has already raised. *)
Definition pad_data (sort_key : string)
    (batch_data : list (Item.t scalar)) (h : heap)
  : result (Batch.t scalar * heap) :=
  let batch_text_indices := [] in
  let batch_context_indices := [] in
  let batch_aspect_indices := [] in
  let batch_left_indices := [] in
  let batch_polarity := [] in
  let batch_dependency_graph := [] in
  let batch_dependency_tree := [] in
  let? lens := key_lengths sort_key h batch_data in
  let? max_len := py_max lens in
  match batch_data with
  | [] => Raise ValueError
  | item :: _ =>
      let text_indices := Item.text_indices item in
      let context_indices := Item.context_indices item in
      let aspect_indices := Item.aspect_indices item in
      let left_indices := Item.left_indices item in
      let polarity := Item.polarity item in
      let dependency_graph := Item.dependency_graph item in
      let dependency_tree := Item.dependency_tree item in
      let? (r, h) := pad_batch_encoding text_indices max_len h in
      let batch_text_indices := batch_text_indices ++ [r] in
      let? (r, h) := pad_batch_encoding context_indices max_len h in
      let batch_context_indices := batch_context_indices ++ [r] in
      let? (r, h) := pad_batch_encoding aspect_indices max_len h in
      let batch_aspect_indices := batch_aspect_indices ++ [r] in
      let? (r, h) := pad_batch_encoding left_indices max_len h in
      let batch_left_indices := batch_left_indices ++ [r] in
      let batch_polarity := batch_polarity ++ [polarity] in
      (* [text_indices["input_ids"]] is read here, after the call above
         has replaced it in the same object *)
      let? ids := enc_getitem h text_indices "input_ids" in
      let? g := np_pad zero dependency_graph
                  (max_len - len ids) (max_len - len ids) in
      let batch_dependency_graph := batch_dependency_graph ++ [g] in
      let? ids := enc_getitem h text_indices "input_ids" in
      let? g := np_pad zero dependency_tree
                  (max_len - len ids) (max_len - len ids) in
      let batch_dependency_tree := batch_dependency_tree ++ [g] in
      Ok ({| Batch.text_indices := batch_text_indices;
             Batch.context_indices := batch_context_indices;
             Batch.aspect_indices := batch_aspect_indices;
             Batch.left_indices := batch_left_indices;
             Batch.polarity := batch_polarity;
             Batch.dependency_graph := batch_dependency_graph;
             Batch.dependency_tree := batch_dependency_tree |}, h)
  end.

(** [[len(x[self.sort_key]) for x in data]]: the keys of the sort *)
Fixpoint sort_keys (sort_key : string) (h : heap)
    (data : list (Item.t scalar)) : result (list Z) :=
  match data with
  | [] => Ok []
  | x :: rest =>
      let? v := Item.getitem x sort_key in
      let? k := Item.len_value h v in
      let? ks := sort_keys sort_key h rest in
      Ok (k :: ks)
  end.

(** [sorted] is stable: an element goes before the elements that
    followed it and whose key is not smaller. *)
Fixpoint insert_by_key {A : Type} (k : Z) (x : A) (l : list (Z * A))
  : list (Z * A) :=
  match l with
  | [] => [(k, x)]
  | (k', y) :: l' =>
      if k <=? k' then (k, x) :: l else (k', y) :: insert_by_key k x l'
  end.

Definition sort_pairs {A : Type} (keyed : list (Z * A)) : list (Z * A) :=
  fold_right (fun kx acc => insert_by_key (fst kx) (snd kx) acc) [] keyed.

Definition sorted_by_key {A : Type} (keyed : list (Z * A)) : list A :=
  map snd (sort_pairs keyed).

(** [int(math.ceil(n / b))] for [b] other than 0, as a number of
    iterations of [range] (none when it is not positive). The
    quotient is taken exactly. *)
Definition num_batches (n b : Z) : nat := Z.to_nat (- ((- n) / b)).

(** The list comprehension over [range(num_batch)], from [i] on *)
Fixpoint pad_chunks (sort_key : string) (sorted_data : list (Item.t scalar))
    (batch_size : nat) (i : nat) (count : nat) (h : heap)
  : result (list (Batch.t scalar) * heap) :=
  match count with
  | O => Ok ([], h)
  | S count' =>
      let chunk := Py.slice sorted_data (i * batch_size) ((i + 1) * batch_size) in
      let? (b, h) := pad_data sort_key chunk h in
      let? (bs, h) := pad_chunks sort_key sorted_data batch_size (S i) count' h in
      Ok (b :: bs, h)
  end.

(** [sort_and_pad(self, data, batch_size)]. Iterating over the
    dataset and slicing it go through [__getitem__] to the list it
    holds. *)
Definition sort_and_pad (sort : bool) (sort_key : string)
    (data : ABSADataset.t (Item.t scalar)) (batch_size : Z) (h : heap)
  : result (list (Batch.t scalar) * heap) :=
  if batch_size =? 0 then Raise ZeroDivisionError
  else
    let num_batch := num_batches (ABSADataset.__len__ data) batch_size in
    let? sorted_data :=
      if sort
      then let? keys := sort_keys sort_key h (ABSADataset.data data) in
           Ok (sorted_by_key (combine keys (ABSADataset.data data)))
      else Ok (ABSADataset.data data) in
    pad_chunks sort_key sorted_data (Z.to_nat batch_size) 0 num_batch h.

(** The iterator object *)
Record t : Type := mk {
  shuffle : bool;
  sort : bool;
  sort_key : string;
  batches : list (Batch.t scalar);
  batch_len : nat
}.

(** [__init__(self, data, batch_size, sort_key, shuffle, sort)] *)
Definition __init__ (data : ABSADataset.t (Item.t scalar)) (batch_size : Z)
    (sort_key : string) (shuffle sort : bool) (h : heap)
  : result (t * heap) :=
  let? (batches, h) := sort_and_pad sort sort_key data batch_size h in
  Ok ({| shuffle := shuffle; sort := sort; sort_key := sort_key;
         batches := batches; batch_len := length batches |}, h).

(** *** Traversal

    [__iter__] is a generator function: calling it runs nothing and
    gives a generator; the body runs, up to the next [yield], each
    time the generator is asked for an element. A generator is
    either not started, or suspended at the [yield] of an iteration
    of the loop (it will resume with index [idx]), or finished. *)
Inductive generator : Type :=
| Created
| Suspended (idx : nat)
| Finished.

(** What asking for the next element gives *)
Inductive outcome : Type :=
| Yield (b : Batch.t scalar)
| StopIteration
| Failure (e : exn).

(** The draws of the random generator (see [Random]) *)
Variable source : nat -> nat.

(** [__iter__(self)] *)
Definition __iter__ (self : t) : generator := Created.

(** The loop [for idx in range(self.batch_len): yield self.batches[idx]],
    entered with index [idx] *)
Definition resume (self : t) (idx : nat) : outcome * generator :=
  if (idx <? batch_len self)%nat
  then match batches self !! idx with
       | Some b => (Yield b, Suspended (S idx))
       | None => (Failure IndexError, Finished)
       end
  else (StopIteration, Finished).

(** [random.shuffle(self.batches)]: the list of the object is permuted
    in place. *)
Definition shuffle_batches (self : t) (drawn : nat) : t * nat :=
  let '(x, drawn') := Random.shuffle source (batches self) drawn in
  ({| shuffle := shuffle self; sort := sort self; sort_key := sort_key self;
      batches := x; batch_len := batch_len self |}, drawn').

(** [next(g)] for a generator [g] of [self]: the element or the end,
    the generator, the iterator object and the state of the random
    generator afterwards. *)
Definition next (g : generator) (self : t) (drawn : nat)
  : outcome * generator * t * nat :=
  match g with
  | Created =>
      let '(self, drawn) :=
        if shuffle self then shuffle_batches self drawn else (self, drawn) in
      let '(o, g) := resume self 0 in
      (o, g, self, drawn)
  | Suspended idx =>
      let '(o, g) := resume self idx in
      (o, g, self, drawn)
  | Finished => (StopIteration, Finished, self, drawn)
  end.

(** The elements that [g] gives when it is run to its end with nothing
    else run in between, as [for batch in g] does; [None] when an
    exception ends it or when [fuel] requests do not reach the end. *)
Fixpoint drain (fuel : nat) (g : generator) (self : t) (drawn : nat)
  : option (list (Batch.t scalar) * t * nat) :=
  match fuel with
  | O => None
  | S fuel' =>
      match next g self drawn with
      | (Yield b, g', self', drawn') =>
          match drain fuel' g' self' drawn' with
          | Some (bs, self'', drawn'') => Some (b :: bs, self'', drawn'')
          | None => None
          end
      | (StopIteration, _, self', drawn') => Some ([], self', drawn')
      | (Failure _, _, _, _) => None
      end
  end.

(** One traversal, [for batch in self]: a new generator run to its end *)
Definition traverse (self : t) (drawn : nat)
  : option (list (Batch.t scalar) * t * nat) :=
  drain (S (batch_len self)) (__iter__ self) self drawn.

(** [n] traversals, one after the other: what each of them yields *)
Fixpoint traversals (n : nat) (self : t) (drawn : nat)
  : option (list (list (Batch.t scalar))) :=
  match n with
  | O => Some []
  | S n' =>
      match traverse self drawn with
      | Some (ys, self', drawn') =>
          match traversals n' self' drawn' with
          | Some yss => Some (ys :: yss)
          | None => None
          end
      | None => None
      end
  end.

(** Several generators of one iterator object, advanced in any order:
    the object and the random generator are shared, each generator
    has its own position. *)
Record world : Type := mk_world {
  object : t;
  generators : list generator;
  draws : nat
}.

(** [next] on the [k]-th generator *)
Definition step (k : nat) (w : world) : option (outcome * world) :=
  match generators w !! k with
  | None => None
  | Some g =>
      let '(o, g', self', drawn') := next g (object w) (draws w) in
      Some (o, {| object := self';
                  generators := <[k := g']> (generators w);
                  draws := drawn' |})
  end.

(** The outcomes of a schedule of requests, each tagged with its
    generator *)
Fixpoint run (schedule : list nat) (w : world) : list (nat * outcome) :=
  match schedule with
  | [] => []
  | k :: schedule' =>
      match step k w with
      | None => []
      | Some (o, w') => (k, o) :: run schedule' w'
      end
  end.

End BucketIterator.
Arguments t : clear implicits.
Arguments generator : clear implicits.
Arguments outcome : clear implicits.
Arguments world : clear implicits.
End BucketIterator.

(** ** ABSADatasetReader *)

Module ABSADatasetReader.
Section Reader.
Context {scalar : Type}.

(** The tokenizer maps a text to a new encoding. *)
Variable tokenizer : string -> encoding.

(** The body of the loop of [__read_data__] for the index [i] *)
Definition read_record (lines : list string)
    (idx2graph idx2tree : gmap Z (ndarray scalar)) (i : Z) (h : heap)
  : result (Item.t scalar * heap) :=
  let? line := Py.getitem lines i in
  let '(l, _, r) := Str.partition line "$T$" in
  let text_left := Str.strip (Str.lower l) in
  let text_right := Str.strip (Str.lower r) in
  let? line := Py.getitem lines (i + 1) in
  let aspect := Str.strip (Str.lower line) in
  let? line := Py.getitem lines (i + 2) in
  let polarity := Str.strip (Str.lower line) in
  let '(text_indices, h) :=
    alloc h (tokenizer (text_left ++ " " ++ aspect ++ " " ++ text_right)) in
  let '(context_indices, h) :=
    alloc h (tokenizer (text_left ++ " " ++ text_right)) in
  let '(aspect_indices, h) := alloc h (tokenizer aspect) in
  let '(left_indices, h) := alloc h (tokenizer text_left) in
  let? polarity := Str.int polarity in
  let polarity := polarity + 1 in
  let? dependency_graph := Py.dict_getitem idx2graph i in
  let? dependency_tree := Py.dict_getitem idx2tree i in
  let data :=
    {| Item.text_indices := text_indices;
       Item.context_indices := context_indices;
       Item.aspect_indices := aspect_indices;
       Item.left_indices := left_indices;
       Item.polarity := polarity;
       Item.dependency_graph := dependency_graph;
       Item.dependency_tree := dependency_tree |} in
  Ok (data, h).

(** The loop over the indices, [all_data] being the list built *)
Fixpoint read_records (lines : list string)
    (idx2graph idx2tree : gmap Z (ndarray scalar)) (indices : list Z)
    (h : heap) : result (list (Item.t scalar) * heap) :=
  match indices with
  | [] => Ok ([], h)
  | i :: indices' =>
      let? (data, h) := read_record lines idx2graph idx2tree i h in
      let? (all_data, h) := read_records lines idx2graph idx2tree indices' h in
      Ok (data :: all_data, h)
  end.

(** [__read_data__(datasets, tokenizer)], given what the three files
    hold: the lines of the raw file and the two unpickled mappings. *)
Definition __read_data__ (lines : list string)
    (idx2graph idx2tree : gmap Z (ndarray scalar)) (h : heap)
  : result (list (Item.t scalar) * heap) :=
  read_records lines idx2graph idx2tree
    (Py.range 0 (Z.of_nat (length lines)) 3) h.

(** What the three files of a dataset hold: [datasets["raw"]],
    [datasets["graph"]] and [datasets["tree"]] *)
Record files : Type := mk_files {
  raw : list string;
  graph : gmap Z (ndarray scalar);
  tree : gmap Z (ndarray scalar)
}.

(** The reader object; [number] is the type of the entries of the
    embedding matrix. *)
Record t {number : Type} : Type := mk {
  embedding_matrix : list (list number);
  train_data : ABSADataset.t (Item.t scalar);
  test_data : ABSADataset.t (Item.t scalar)
}.

(** [__init__(self, config, tokenizer)], given what the files that the
    configuration names hold, the vocabulary of the tokenizer and the
    dimension, with [save_embedding_matrix=False]: the matrix is built
    first, then the training set is read, then the test set. *)
Definition __init__ {number : Type} (zero : number)
    (float32 : string -> option number) (uniform : nat -> list number)
    (word_vec_file : list string) (vocab : list (string * Z))
    (embed_dim : nat) (dataset_train dataset_test : files) (h : heap)
  : result (@t number * heap) :=
  let? embedding_matrix :=
    build_embedding_matrix zero float32 uniform word_vec_file vocab embed_dim in
  let? (train, h) :=
    __read_data__ (raw dataset_train) (graph dataset_train)
      (tree dataset_train) h in
  let? (test, h) :=
    __read_data__ (raw dataset_test) (graph dataset_test)
      (tree dataset_test) h in
  Ok ({| embedding_matrix := embedding_matrix;
         train_data := ABSADataset.__init__ train;
         test_data := ABSADataset.__init__ test |}, h).

End Reader.
End ABSADatasetReader.

(** ** Vocabulary of the statements *)

(** The encoding [enc], whose three sequences are the lists [ids], [types]
    and [mask], after it has been padded to [max_len]. *)
Definition padded (enc : encoding) (ids types mask : list Z) (max_len : Z)
  : encoding :=
  <["attention_mask_pad" :=
      Tensor (mask ++ times 1 (max_len - Z.of_nat (length mask)))]>
    (<["token_type_ids" :=
         Tensor (types ++ times 0 (max_len - Z.of_nat (length ids)))]>
       (<["input_ids" :=
            Tensor (ids ++ times 0 (max_len - Z.of_nat (length ids)))]> enc)).

(** The store holds at [l] an encoding as the tokenizer makes them: three
    Python lists of the same length. *)
Definition tokenized (h : heap) (l : loc) (ids mask : list Z) : Prop :=
  exists (enc : encoding) (types : list Z),
    h !! l = Some enc /\
    enc !! "input_ids" = Some (PyList ids) /\
    enc !! "token_type_ids" = Some (PyList types) /\
    enc !! "attention_mask" = Some (PyList mask) /\
    length types = length ids /\
    length mask = length ids.

(** The four tokenized fields of an example *)
Definition fields {scalar : Type} (t : Item.t scalar) : list loc :=
  [Item.text_indices t; Item.context_indices t;
   Item.aspect_indices t; Item.left_indices t].




(** The parts of a record of the raw file: the lower-cased and trimmed
    text before and after the first marker of the sentence, and a line
    lower-cased and trimmed. *)
Definition left_context (sentence : string) : string :=
  Str.strip (Str.lower (fst (fst (Str.partition sentence "$T$")))).

Definition right_context (sentence : string) : string :=
  Str.strip (Str.lower (snd (Str.partition sentence "$T$"))).

Definition trimmed (line : string) : string := Str.strip (Str.lower line).

(** [item] is the example of the three lines that start at line [i], and
    its four encodings are in the store [h]. *)
Definition example_of {scalar : Type} (tokenizer : string -> encoding)
    (lines : list string) (idx2graph idx2tree : gmap Z (ndarray scalar))
    (h : heap) (i : nat) (item : Item.t scalar) : Prop :=
  exists (sentence aspect label : string) (p : Z),
    lines !! i = Some sentence /\
    lines !! (i + 1)%nat = Some aspect /\
    lines !! (i + 2)%nat = Some label /\
    Str.int (trimmed label) = Ok p /\
    Item.polarity item = p + 1 /\
    h !! Item.text_indices item =
      Some (tokenizer (left_context sentence ++ " " ++ trimmed aspect ++ " "
                         ++ right_context sentence)%string) /\
    h !! Item.context_indices item =
      Some (tokenizer (left_context sentence ++ " " ++ right_context sentence)%string) /\
    h !! Item.aspect_indices item = Some (tokenizer (trimmed aspect)) /\
    h !! Item.left_indices item = Some (tokenizer (left_context sentence)) /\
    idx2graph !! Z.of_nat i = Some (Item.dependency_graph item) /\
    idx2tree !! Z.of_nat i = Some (Item.dependency_tree item).






(** An encoding as the tokenizer is expected to make them: the three
    sequences are Python lists of one length. *)
Definition well_formed_encoding (enc : encoding) : Prop :=
  exists ids types mask : list Z,
    enc !! "input_ids" = Some (PyList ids) /\
    enc !! "token_type_ids" = Some (PyList types) /\
    enc !! "attention_mask" = Some (PyList mask) /\
    length types = length ids /\
    length mask = length ids.

(** ** Sample data *)

(** An encoding as a tokenizer gives it, for the input ids [ids] *)
Definition sample_encoding (ids : list Z) : encoding :=
  <["input_ids" := PyList ids]>
    (<["token_type_ids" := PyList (repeat 0 (length ids))]>
       (<["attention_mask" := PyList (repeat 1 (length ids))]> ∅)).

Definition sample_matrix (n : nat) : ndarray Z :=
  {| rows := n; cols := n;
     entry := fun i j => if Nat.eqb i j then 1 else 0 |}.

(** An example whose four encodings are at [base], ..., [base + 3] *)
Definition sample_item (base : nat) (polarity : Z) (n : nat) : Item.t Z :=
  {| Item.text_indices := base;
     Item.context_indices := (base + 1)%nat;
     Item.aspect_indices := (base + 2)%nat;
     Item.left_indices := (base + 3)%nat;
     Item.polarity := polarity;
     Item.dependency_graph := sample_matrix n;
     Item.dependency_tree := sample_matrix n |}.

(** Two examples: the first has three tokens of text and the label 2, the
    second two tokens and the label 0. *)
Definition sample_heap : heap :=
  [sample_encoding [11; 12; 13]; sample_encoding [11; 13];
   sample_encoding [12]; sample_encoding [11];
   sample_encoding [21; 22]; sample_encoding [21];
   sample_encoding [22]; sample_encoding [21]].

Definition longer_item : Item.t Z := sample_item 0 2 3.
Definition shorter_item : Item.t Z := sample_item 4 0 2.



(** Two batches, as construction with the batch size 1 makes them from the
    two examples above, and an iterator object that holds them *)
Definition batch_a : Batch.t Z :=
  {| Batch.text_indices := [0%nat]; Batch.context_indices := [1%nat];
     Batch.aspect_indices := [2%nat]; Batch.left_indices := [3%nat];
     Batch.polarity := [2];
     Batch.dependency_graph := [sample_matrix 3];
     Batch.dependency_tree := [sample_matrix 3] |}.

Definition batch_b : Batch.t Z :=
  {| Batch.text_indices := [4%nat]; Batch.context_indices := [5%nat];
     Batch.aspect_indices := [6%nat]; Batch.left_indices := [7%nat];
     Batch.polarity := [0];
     Batch.dependency_graph := [sample_matrix 2];
     Batch.dependency_tree := [sample_matrix 2] |}.

Definition two_batches : BucketIterator.t Z :=
  {| BucketIterator.shuffle := true; BucketIterator.sort := true;
     BucketIterator.sort_key := "text_indices";
     BucketIterator.batches := [batch_a; batch_b];
     BucketIterator.batch_len := 2 |}.

(** Draws of the random generator: the first is odd, the others even, so
    that the first shuffle of two elements keeps their order and the
    second exchanges them. *)
Definition sample_draws (k : nat) : nat :=
  match k with
  | O => 1%nat
  | S _ => 0%nat
  end.

(** A raw file of one record, a tokenizer (the input ids are the lengths
    of the words) and a mapping with the key 0 *)
Definition newline : string := String (ascii_of_nat 10) EmptyString.

Definition sample_lines : list string :=
  ["Great $T$ food" ++ newline; "Pizza" ++ newline; "1" ++ newline]%string.

Definition sample_tokenizer (text : string) : encoding :=
  sample_encoding (map (fun w => Z.of_nat (String.length w)) (Str.split text)).

Definition sample_matrices : gmap Z (ndarray Z) := {[ 0 := sample_matrix 3 ]}.





(** * Properties *)

(** ** The Python primitives on small inputs *)

Example split_on_white_space :
  Str.split ("  new  york 0.1 -0.2" ++ newline) = ["new"; "york"; "0.1"; "-0.2"].
Proof. reflexivity. Qed.

Example partition_at_first_marker :
  Str.partition "a $T$ b $T$ c" "$T$" = ("a ", "$T$", " b $T$ c") /\
  Str.partition "no marker" "$T$" = ("no marker", "", "").
Proof. split; reflexivity. Qed.

Example int_of_text :
  Str.int (" -1" ++ newline) = Ok (-1) /\ Str.int "+1_000" = Ok 1000 /\
  Str.int "1.0" = Raise ValueError /\ Str.int "" = Raise ValueError.
Proof. repeat split; reflexivity. Qed.

Example last_tokens_of_a_line :
  all_but_last 2 ["new"; "york"; "3"; "4"] = ["new"; "york"] /\
  last_tokens 2 ["new"; "york"; "3"; "4"] = ["3"; "4"] /\
  all_but_last 3 ["3"; "4"] = [] /\ last_tokens 3 ["3"; "4"] = ["3"; "4"].
Proof. repeat split; reflexivity. Qed.

Example range_by_three :
  Py.range 0 6 3 = [0; 3] /\ Py.range 0 7 3 = [0; 3; 6].
Proof. split; reflexivity. Qed.

Example ceiling_of_the_quotient :
  BucketIterator.num_batches 5 2 = 3%nat /\
  BucketIterator.num_batches 4 2 = 2%nat /\
  BucketIterator.num_batches 0 2 = 0%nat /\
  BucketIterator.num_batches 5 (-2) = 0%nat.
Proof. repeat split; reflexivity. Qed.

(** ** The dataset container *)

Lemma getitem_front {A : Type} (l : list A) (i : Z) :
  0 <= i < Z.of_nat (length l) ->
  exists x, l !! Z.to_nat i = Some x /\ Py.getitem l i = Ok x.
Proof.
  intros Hi.
  destruct (lookup_lt_is_Some_2 l (Z.to_nat i)) as [x Hx]; [lia|].
  exists x. split; [exact Hx|].
  unfold Py.getitem.
  replace (i <? 0) with false by lia.
  replace (i <? 0) with false by lia.
  replace (Z.of_nat (length l) <=? i) with false by lia.
  simpl. now rewrite Hx.
Qed.

Lemma getitem_back {A : Type} (l : list A) (i : Z) :
  - Z.of_nat (length l) <= i < 0 ->
  exists x, l !! Z.to_nat (Z.of_nat (length l) + i) = Some x /\ Py.getitem l i = Ok x.
Proof.
  intros Hi.
  destruct (lookup_lt_is_Some_2 l (Z.to_nat (Z.of_nat (length l) + i))) as [x Hx]; [lia|].
  exists x. split; [exact Hx|].
  unfold Py.getitem.
  replace (i <? 0) with true by lia.
  replace (i + Z.of_nat (length l) <? 0) with false by lia.
  replace (Z.of_nat (length l) <=? i + Z.of_nat (length l)) with false by lia.
  simpl. replace (i + Z.of_nat (length l)) with (Z.of_nat (length l) + i) by lia.
  now rewrite Hx.
Qed.

Lemma getitem_outside {A : Type} (l : list A) (i : Z) :
  i < - Z.of_nat (length l) \/ Z.of_nat (length l) <= i ->
  Py.getitem l i = Raise IndexError.
Proof.
  intros Hi. unfold Py.getitem.
  destruct (i <? 0) eqn:Hneg.
  - replace (i + Z.of_nat (length l) <? 0) with true by lia. reflexivity.
  - replace (i <? 0) with false by lia.
    replace (Z.of_nat (length l) <=? i) with true by lia. reflexivity.
Qed.

(** C8. An [ABSADataset] built over a list of [n] examples has length [n];
    [__getitem__(i)] for [0 <= i < n] is the [i]-th example of that list;
    and an index that designates no element ([i >= n] or [i < -n]) raises
    [IndexError]. *)
Theorem dataset_len_getitem {E : Type} (examples : list E) :
  let d := ABSADataset.__init__ examples in
  let n := Z.of_nat (length examples) in
  ABSADataset.__len__ d = n /\
  (forall i : Z, 0 <= i < n ->
     exists x, examples !! Z.to_nat i = Some x /\
               ABSADataset.__getitem__ d i = Ok x) /\
  (forall i : Z, i < - n \/ n <= i ->
     ABSADataset.__getitem__ d i = Raise IndexError).
Proof.
  cbv zeta. split; [reflexivity|]. split.
  - intros i Hi. apply getitem_front. exact Hi.
  - intros i Hi. apply getitem_outside. exact Hi.
Qed.

(** C10. [__getitem__] accepts the negative indices [-n <= i < 0]: it
    returns the example at position [n + i]. *)
Theorem dataset_getitem_negative {E : Type} (examples : list E) (i : Z) :
  - Z.of_nat (length examples) <= i < 0 ->
  exists x,
    examples !! Z.to_nat (Z.of_nat (length examples) + i) = Some x /\
    ABSADataset.__getitem__ (ABSADataset.__init__ examples) i = Ok x.
Proof.
  intros Hi. apply getitem_back. exact Hi.
Qed.

Lemma dataset_getitem_negative_witness :
  exists x,
    ["a"; "b"; "c"]%string !! Z.to_nat (Z.of_nat 3 + (-1)) = Some x /\
    ABSADataset.__getitem__ (ABSADataset.__init__ ["a"; "b"; "c"]%string) (-1) = Ok x.
Proof.
  apply (dataset_getitem_negative ["a"; "b"; "c"]%string (-1)). simpl. lia.
Defined.

(** ** Padding one encoding *)

Lemma enc_getitem_Some (h : heap) (l : loc) (enc : encoding) (key : string)
    (v : seq_value) :
  h !! l = Some enc -> enc !! key = Some v -> enc_getitem h l key = Ok v.
Proof. intros Hl Hk. unfold enc_getitem. now rewrite Hl, Hk. Qed.

Lemma enc_setitem_Some (h : heap) (l : loc) (enc : encoding) (key : string)
    (v : seq_value) :
  h !! l = Some enc ->
  enc_setitem h l key v = Ok (<[l := <[key := v]> enc]> h).
Proof. intros Hl. unfold enc_setitem. now rewrite Hl. Qed.

Lemma heap_lookup_update (h : heap) (l : loc) (enc enc' : encoding) :
  h !! l = Some enc -> <[l := enc']> h !! l = Some enc'.
Proof.
  intros Hl. apply list_lookup_insert_eq. eapply lookup_lt_Some; eauto.
Qed.

(** What [pad_batch_encoding] does to an encoding of three lists *)
Lemma pad_batch_encoding_lists (h : heap) (data : loc) (enc : encoding)
    (ids types mask : list Z) (max_len : Z) :
  h !! data = Some enc ->
  enc !! "input_ids" = Some (PyList ids) ->
  enc !! "token_type_ids" = Some (PyList types) ->
  enc !! "attention_mask" = Some (PyList mask) ->
  BucketIterator.pad_batch_encoding data max_len h =
    Ok (data, <[data := padded enc ids types mask max_len]> h).
Proof.
  intros Hl Hi Ht Hm. unfold BucketIterator.pad_batch_encoding.
  rewrite (enc_getitem_Some h data enc "input_ids" _ Hl Hi). simpl.
  rewrite (enc_getitem_Some h data enc "attention_mask" _ Hl Hm). simpl.
  rewrite (enc_setitem_Some h data enc _ _ Hl). simpl.
  set (e1 := <["input_ids" := _]> enc).
  assert (H1 : <[data := e1]> h !! data = Some e1) by (eapply heap_lookup_update; eauto).
  rewrite (enc_getitem_Some _ data e1 "token_type_ids" (PyList types) H1)
    by (subst e1; rewrite lookup_insert_ne by discriminate; exact Ht).
  simpl.
  rewrite (enc_setitem_Some _ data e1 _ _ H1). simpl.
  rewrite list_insert_insert_eq.
  set (e2 := <["token_type_ids" := _]> e1).
  assert (H2 : <[data := e2]> h !! data = Some e2) by (eapply heap_lookup_update; eauto).
  rewrite (enc_getitem_Some _ data e2 "attention_mask" (PyList mask) H2)
    by (subst e2 e1; rewrite !lookup_insert_ne by discriminate; exact Hm).
  simpl.
  rewrite (enc_setitem_Some _ data e2 _ _ H2). simpl.
  rewrite list_insert_insert_eq.
  reflexivity.
Qed.

Lemma length_padding (x : Z) (l : list Z) (max_len : Z) :
  Z.of_nat (length l) <= max_len ->
  Z.of_nat (length (l ++ times x (max_len - Z.of_nat (length l)))) = max_len.
Proof.
  intros H. unfold times. rewrite length_app, repeat_length. lia.
Qed.

(** C9. For an encoding whose three sequences are lists of one length and
    every [max_len] at least that length, [pad_batch_encoding] leaves the
    entry ["attention_mask"] as it was and stores the padded mask under
    ["attention_mask_pad"]; the entries ["input_ids"] and
    ["token_type_ids"] are replaced by sequences of length [max_len]; no
    other entry of the encoding and no other encoding of the store
    changes. *)
Theorem pad_batch_encoding_frame (h : heap) (data : loc) (enc : encoding)
    (ids types mask : list Z) (max_len : Z) :
  h !! data = Some enc ->
  enc !! "input_ids" = Some (PyList ids) ->
  enc !! "token_type_ids" = Some (PyList types) ->
  enc !! "attention_mask" = Some (PyList mask) ->
  length types = length ids ->
  length mask = length ids ->
  Z.of_nat (length ids) <= max_len ->
  exists (enc' : encoding) (ids' types' mask' : list Z),
    BucketIterator.pad_batch_encoding data max_len h = Ok (data, <[data := enc']> h) /\
    enc' !! "attention_mask" = Some (PyList mask) /\
    enc' !! "attention_mask_pad" = Some (Tensor mask') /\
    mask' = mask ++ repeat 1 (Z.to_nat (max_len - Z.of_nat (length mask))) /\
    enc' !! "input_ids" = Some (Tensor ids') /\
    ids' = ids ++ repeat 0 (Z.to_nat (max_len - Z.of_nat (length ids))) /\
    enc' !! "token_type_ids" = Some (Tensor types') /\
    types' = types ++ repeat 0 (Z.to_nat (max_len - Z.of_nat (length types))) /\
    Z.of_nat (length ids') = max_len /\
    Z.of_nat (length types') = max_len /\
    Z.of_nat (length mask') = max_len /\
    (forall key : string,
       key <> "input_ids" -> key <> "token_type_ids" ->
       key <> "attention_mask_pad" -> enc' !! key = enc !! key).
Proof.
  intros Hl Hi Ht Hm Hlt Hlm Hle.
  exists (padded enc ids types mask max_len).
  eexists _, _, _.
  split; [now apply pad_batch_encoding_lists|].
  unfold padded.
  split; [rewrite !lookup_insert_ne by discriminate; exact Hm|].
  split; [apply lookup_insert_eq|].
  split; [reflexivity|].
  split; [rewrite !lookup_insert_ne by discriminate; apply lookup_insert_eq|].
  split; [reflexivity|].
  split; [rewrite lookup_insert_ne by discriminate; apply lookup_insert_eq|].
  split; [now rewrite Hlt|].
  split; [now apply (length_padding 0)|].
  split; [unfold times; rewrite length_app, repeat_length; lia|].
  split; [apply (length_padding 1); lia|].
  intros key K1 K2 K3. now rewrite !lookup_insert_ne by congruence.
Qed.

Lemma pad_batch_encoding_frame_witness :
  exists (enc' : encoding) (ids' types' mask' : list Z),
    BucketIterator.pad_batch_encoding 0%nat 3 [sample_encoding [11; 12]] =
      Ok (0%nat, <[0%nat := enc']> [sample_encoding [11; 12]]) /\
    enc' !! "attention_mask" = Some (PyList [1; 1]) /\
    enc' !! "attention_mask_pad" = Some (Tensor mask') /\
    mask' = [1; 1] ++ repeat 1 (Z.to_nat (3 - Z.of_nat (length [1; 1]))) /\
    enc' !! "input_ids" = Some (Tensor ids') /\
    ids' = [11; 12] ++ repeat 0 (Z.to_nat (3 - Z.of_nat (length [11; 12]))) /\
    enc' !! "token_type_ids" = Some (Tensor types') /\
    types' = [0; 0] ++ repeat 0 (Z.to_nat (3 - Z.of_nat (length [0; 0]))) /\
    Z.of_nat (length ids') = 3 /\
    Z.of_nat (length types') = 3 /\
    Z.of_nat (length mask') = 3 /\
    (forall key : string,
       key <> "input_ids" -> key <> "token_type_ids" ->
       key <> "attention_mask_pad" ->
       enc' !! key = sample_encoding [11; 12] !! key).
Proof.
  apply (pad_batch_encoding_frame [sample_encoding [11; 12]] 0%nat
           (sample_encoding [11; 12]) [11; 12] [0; 0] [1; 1] 3);
    solve [reflexivity | simpl; lia].
Defined.


(** ** Padding a batch *)

Section PadData.
Context {scalar : Type}.
Variable zero : scalar.










End PadData.






(** C3, at a failing input: a batch of an example of two tokens (its
    matrices are 2 x 2) and one of three tokens, so that [max_len] is 3.
    The matrices that [pad_data] returns are still 2 x 2: the width of
    the padding is computed from the input ids of the text after they have
    been padded in place, and is therefore 0. *)
Lemma pad_data_matrix_not_padded :
  (let? lens := BucketIterator.key_lengths "text_indices" sample_heap
                  [shorter_item; longer_item] in
   BucketIterator.py_max lens) = Ok 3 /\
  (let? (b, _) := BucketIterator.pad_data 0 "text_indices"
                    [shorter_item; longer_item] sample_heap in
   Ok (map shape (Batch.dependency_graph b),
       map shape (Batch.dependency_tree b)))
  = Ok ([(2, 2)%nat], [(2, 2)%nat]).
Proof. split; vm_compute; reflexivity. Qed.

(** C1, at a failing input: two examples with the labels 2 and 0 and the
    batch size 2. Construction gives one batch, whose labels are [2]
    alone: [pad_data] returns at the end of the first iteration of its
    loop. *)
Lemma construction_keeps_first_label_only :
  map Item.polarity [longer_item; shorter_item] = [2; 0] /\
  (let? (it, _) := BucketIterator.__init__ 0
                     (ABSADataset.__init__ [longer_item; shorter_item]) 2
                     "text_indices" true true sample_heap in
   Ok (BucketIterator.batch_len it,
       map Batch.polarity (BucketIterator.batches it)))
  = Ok (1%nat, [[2]]).
Proof. split; vm_compute; reflexivity. Qed.

(** C4, at a failing input: with [sort=True] and the batch size 1, a
    dataset of an example of three tokens followed by one of two tokens
    gives the batches in that same order: the key of the sort is
    [len(x[self.sort_key])], the number of entries of the encoding (3
    for both), not the number of its input ids. *)
Lemma sort_does_not_order_by_tokens :
  BucketIterator.key_lengths "text_indices" sample_heap [longer_item; shorter_item]
    = Ok [3; 2] /\
  BucketIterator.sort_keys "text_indices" sample_heap [longer_item; shorter_item]
    = Ok [3; 3] /\
  (let? (it, _) := BucketIterator.__init__ 0
                     (ABSADataset.__init__ [longer_item; shorter_item]) 1
                     "text_indices" true true sample_heap in
   Ok (map Batch.text_indices (BucketIterator.batches it)))
  = Ok [[Item.text_indices longer_item]; [Item.text_indices shorter_item]].
Proof. repeat split; vm_compute; reflexivity. Qed.

(** ** Shuffling and traversal *)

Section Traversal.
Context {scalar : Type}.
Variable source : nat -> nat.

Lemma swap_Permutation {A : Type} (x : list A) (i j : nat) :
  Random.swap x i j ≡ₚ x.
Proof.
  unfold Random.swap.
  destruct (x !! i) as [a|] eqn:Hi; [|reflexivity].
  destruct (x !! j) as [b|] eqn:Hj; [|reflexivity].
  now apply Permutation_insert_swap.
Qed.

Lemma shuffle_from_Permutation {A : Type} (i : nat) (x : list A) (drawn : nat) :
  fst (Random.shuffle_from source i x drawn) ≡ₚ x.
Proof.
  revert x drawn. induction i as [|i IH]; intros x drawn; [reflexivity|].
  cbn [Random.shuffle_from Random.randbelow].
  rewrite IH. apply swap_Permutation.
Qed.

Lemma shuffle_Permutation {A : Type} (x : list A) (drawn : nat) :
  fst (Random.shuffle source x drawn) ≡ₚ x.
Proof. apply shuffle_from_Permutation. Qed.

(** The invariant of an iterator object: [batch_len] is the number of its
    batches. *)
Lemma init_batch_len (zero : scalar) (data : ABSADataset.t (Item.t scalar))
    (batch_size : Z) (sort_key : string) (shuffle sort : bool) (h h' : heap)
    (self : BucketIterator.t scalar) :
  BucketIterator.__init__ zero data batch_size sort_key shuffle sort h = Ok (self, h') ->
  length (BucketIterator.batches self) = BucketIterator.batch_len self.
Proof.
  unfold BucketIterator.__init__.
  destruct (BucketIterator.sort_and_pad _ _ _ _ _ _) as [[bs h1]|e]; simpl;
    [|discriminate].
  intros [= <- _]. reflexivity.
Qed.

Lemma shuffle_batches_spec (self : BucketIterator.t scalar) (drawn : nat) :
  let self' := fst (BucketIterator.shuffle_batches source self drawn) in
  BucketIterator.batches self' ≡ₚ BucketIterator.batches self /\
  BucketIterator.batch_len self' = BucketIterator.batch_len self /\
  BucketIterator.shuffle self' = BucketIterator.shuffle self.
Proof.
  unfold BucketIterator.shuffle_batches.
  pose proof (shuffle_Permutation (BucketIterator.batches self) drawn) as HP.
  destruct (Random.shuffle source (BucketIterator.batches self) drawn) as [x d].
  simpl in *. auto.
Qed.

(** A suspended generator, run to its end, yields the batches from its
    position on and leaves the object and the random generator alone. *)
Lemma drain_suspended (self : BucketIterator.t scalar) (drawn : nat)
    (fuel idx : nat) :
  length (BucketIterator.batches self) = BucketIterator.batch_len self ->
  (idx <= BucketIterator.batch_len self)%nat ->
  (BucketIterator.batch_len self < fuel + idx)%nat ->
  BucketIterator.drain source fuel (BucketIterator.Suspended idx) self drawn =
    Some (drop idx (BucketIterator.batches self), self, drawn).
Proof.
  intros Hlen. revert idx.
  induction fuel as [|fuel IH]; intros idx Hidx' Hfuel.
  - simpl in Hfuel. exfalso. lia.
  - cbn [BucketIterator.drain BucketIterator.next].
    unfold BucketIterator.resume.
    destruct (idx <? BucketIterator.batch_len self)%nat eqn:Hidx.
    + apply Nat.ltb_lt in Hidx.
      destruct (lookup_lt_is_Some_2 (BucketIterator.batches self) idx) as [b Hb];
        [lia|].
      rewrite Hb. rewrite (IH (S idx)) by lia.
      now rewrite (drop_S _ _ _ Hb).
    + apply Nat.ltb_ge in Hidx. rewrite drop_ge by lia. reflexivity.
Qed.

Lemma drain_created (self : BucketIterator.t scalar) (drawn fuel : nat) :
  BucketIterator.drain source (S fuel) BucketIterator.Created self drawn =
    let '(self', drawn') :=
      if BucketIterator.shuffle self
      then BucketIterator.shuffle_batches source self drawn
      else (self, drawn) in
    BucketIterator.drain source (S fuel) (BucketIterator.Suspended 0) self' drawn'.
Proof.
  cbn [BucketIterator.drain BucketIterator.next].
  destruct (if BucketIterator.shuffle self
            then BucketIterator.shuffle_batches source self drawn
            else (self, drawn)) as [self' drawn'].
  reflexivity.
Qed.

Lemma traverse_spec (self : BucketIterator.t scalar) (drawn : nat) :
  length (BucketIterator.batches self) = BucketIterator.batch_len self ->
  exists ys self' drawn',
    BucketIterator.traverse source self drawn = Some (ys, self', drawn') /\
    ys ≡ₚ BucketIterator.batches self /\
    BucketIterator.batches self' = ys /\
    BucketIterator.batch_len self' = BucketIterator.batch_len self.
Proof.
  intros Hlen. unfold BucketIterator.traverse, BucketIterator.__iter__.
  rewrite drain_created.
  destruct (BucketIterator.shuffle self).
  - pose proof (shuffle_batches_spec self drawn) as (HP & HL & _).
    destruct (BucketIterator.shuffle_batches source self drawn) as [self' drawn'].
    simpl in HP, HL.
    rewrite <- HL. rewrite drain_suspended.
    + rewrite drop_0. eexists _, _, _. split; [reflexivity|]. auto.
    + rewrite HL, <- Hlen. now apply Permutation_length.
    + lia.
    + lia.
  - rewrite drain_suspended by (assumption || lia).
    rewrite drop_0. eexists _, _, _. split; [reflexivity|]. auto.
Qed.

End Traversal.

(** C7, as amended. Let an iterator object hold as many batches as its
    [batch_len] says, as construction leaves it. Then any number of
    traversals, each run to its end before the next one starts, all
    return, and each of them yields a permutation of the batches of the
    object: every batch once, unchanged, in some order. *)
Theorem consecutive_traversals {scalar : Type} (source : nat -> nat) (n : nat)
    (self : BucketIterator.t scalar) (drawn : nat) :
  length (BucketIterator.batches self) = BucketIterator.batch_len self ->
  exists yss : list (list (Batch.t scalar)),
    BucketIterator.traversals source n self drawn = Some yss /\
    length yss = n /\
    Forall (fun ys => ys ≡ₚ BucketIterator.batches self) yss.
Proof.
  revert self drawn. induction n as [|n IH]; intros self drawn Hlen.
  - exists []. repeat split. constructor.
  - cbn [BucketIterator.traversals].
    destruct (traverse_spec source self drawn Hlen)
      as (ys & self' & drawn' & -> & HP & Hb & HL).
    destruct (IH self' drawn') as (yss & -> & Hn & Hall).
    { rewrite Hb, HL, <- Hlen. now apply Permutation_length. }
    exists (ys :: yss). split; [reflexivity|]. split; [simpl; lia|].
    constructor; [exact HP|].
    eapply Forall_impl; [exact Hall|]. intros zs Hzs.
    rewrite Hzs, Hb. exact HP.
Qed.

Lemma consecutive_traversals_witness :
  exists yss : list (list (Batch.t Z)),
    BucketIterator.traversals sample_draws 3 two_batches 0 = Some yss /\
    length yss = 3%nat /\
    Forall (fun ys => ys ≡ₚ BucketIterator.batches two_batches) yss.
Proof.
  apply (consecutive_traversals sample_draws 3 two_batches 0). reflexivity.
Defined.

(** C7 does not hold as it is stated: two generators of one iterator object
    with two batches, the second started while the first is suspended.
    The shuffle that the second one does on starting exchanges the two
    batches of the object, and the first generator then yields again the
    batch that it had already yielded: the same batch twice, the other
    one never. *)
Lemma interleaved_traversal_repeats_a_batch :
  BucketIterator.run sample_draws [0; 1; 0; 0]%nat
    {| BucketIterator.object := two_batches;
       BucketIterator.generators :=
         [BucketIterator.__iter__ two_batches; BucketIterator.__iter__ two_batches];
       BucketIterator.draws := 0 |} =
  [(0%nat, BucketIterator.Yield batch_a);
   (1%nat, BucketIterator.Yield batch_b);
   (0%nat, BucketIterator.Yield batch_a);
   (0%nat, BucketIterator.StopIteration)].
Proof. reflexivity. Qed.

(** ** The dataset reader *)

Section Reader.
Context {scalar : Type}.
Variable tokenizer : string -> encoding.
Variable lines : list string.
Variables idx2graph idx2tree : gmap Z (ndarray scalar).

Lemma getitem_lookup {A : Type} (l : list A) (i : nat) (x : A) :
  l !! i = Some x -> Py.getitem l (Z.of_nat i) = Ok x.
Proof.
  intros Hx. destruct (getitem_front l (Z.of_nat i)) as (y & Hy & ->).
  - apply lookup_lt_Some in Hx. lia.
  - rewrite Nat2Z.id in Hy. congruence.
Qed.



(** One record: the example made and the four encodings added *)
Lemma read_record_ok (h : heap) (i : nat) (sentence aspect label : string)
    (p : Z) (g t : ndarray scalar) :
  lines !! i = Some sentence ->
  lines !! (i + 1)%nat = Some aspect ->
  lines !! (i + 2)%nat = Some label ->
  Str.int (trimmed label) = Ok p ->
  idx2graph !! Z.of_nat i = Some g ->
  idx2tree !! Z.of_nat i = Some t ->
  exists (item : Item.t scalar) (ext : heap),
    ABSADatasetReader.read_record tokenizer lines idx2graph idx2tree (Z.of_nat i) h
      = Ok (item, h ++ ext) /\
    example_of tokenizer lines idx2graph idx2tree (h ++ ext) i item.
Proof.
  intros H0 H1 H2 Hp Hg Ht.
  unfold ABSADatasetReader.read_record.
  rewrite (getitem_lookup _ _ _ H0). cbn [rbind].
  replace (Z.of_nat i + 1) with (Z.of_nat (i + 1)) by lia.
  replace (Z.of_nat i + 2) with (Z.of_nat (i + 2)) by lia.
  rewrite (getitem_lookup _ _ _ H1), (getitem_lookup _ _ _ H2).
  pose proof (eq_refl : left_context sentence = left_context sentence) as EL.
  pose proof (eq_refl : right_context sentence = right_context sentence) as ER.
  unfold left_context at 1 in EL. unfold right_context at 1 in ER.
  destruct (Str.partition sentence "$T$") as [[l m] r]. simpl in EL, ER.
  cbn [rbind]. unfold alloc. fold (trimmed label). rewrite Hp. cbn [rbind].
  unfold Py.dict_getitem. rewrite Hg, Ht. cbn [rbind].
  rewrite EL, ER. fold (trimmed aspect).
  eexists _, [_; _; _; _]. split.
  - f_equal. f_equal. now rewrite <- !app_assoc.
  - exists sentence, aspect, label, p. cbn [Item.polarity Item.text_indices
      Item.context_indices Item.aspect_indices Item.left_indices
      Item.dependency_graph Item.dependency_tree].
    repeat (split; [first [assumption | reflexivity]|]).
    split; [now rewrite lookup_app_r, Nat.sub_diag by lia|].
    split; [rewrite lookup_app_r by (rewrite ?length_app; simpl; lia);
            rewrite ?length_app; simpl;
            now replace (length h + 1 - length h)%nat with 1%nat by lia|].
    split; [rewrite lookup_app_r by (rewrite ?length_app; simpl; lia);
            rewrite ?length_app; simpl;
            now replace (length h + 1 + 1 - length h)%nat with 2%nat by lia|].
    split; [rewrite lookup_app_r by (rewrite ?length_app; simpl; lia);
            rewrite ?length_app; simpl;
            now replace (length h + 1 + 1 + 1 - length h)%nat with 3%nat by lia|].
    split; assumption.
Qed.


End Reader.



(** The record of the specification's example: the label 1 is stored as 2,
    the context is the text without the aspect. *)
Example read_data_great_food :
  (left_context "great $T$ food", right_context "great $T$ food") = ("great", "food") /\
  (let? (data, _) := ABSADatasetReader.__read_data__ sample_tokenizer
                       ["great $T$ food"; "pizza"; "1"]
                       sample_matrices sample_matrices [] in
   Ok (map Item.polarity data)) = Ok [2].
Proof. split; vm_compute; reflexivity. Qed.

(** ** The embedding matrix *)

Section Embedding.
Context {scalar : Type}.
Variable zero : scalar.
Variable float32 : string -> option scalar.
Variable uniform : nat -> list scalar.
Variable vocab : list (string * Z).
Variable d : nat.









End Embedding.





(** ** What [pad_data] returns, whenever it returns *)

Lemma rbind_Ok {A B : Type} (r : result A) (k : A -> result B) (y : B) :
  rbind r k = Ok y -> exists x, r = Ok x /\ k x = Ok y.
Proof. destruct r as [x|e]; simpl; [eauto|discriminate]. Qed.

(** [pad_batch_encoding] returns only on an encoding all of whose three
    sequences are still lists. *)
Lemma pad_batch_encoding_inv (data r : loc) (max_len : Z) (h h' : heap) :
  BucketIterator.pad_batch_encoding data max_len h = Ok (r, h') ->
  r = data /\
  exists (enc : encoding) (ids types mask : list Z),
    h !! data = Some enc /\
    enc !! "input_ids" = Some (PyList ids) /\
    enc !! "token_type_ids" = Some (PyList types) /\
    enc !! "attention_mask" = Some (PyList mask) /\
    h' = <[data := padded enc ids types mask max_len]> h.
Proof.
  destruct (h !! data) as [enc|] eqn:Hl.
  2:{ unfold BucketIterator.pad_batch_encoding, enc_getitem. rewrite Hl.
      discriminate. }
  destruct (enc !! "input_ids") as [[ids|ids]|] eqn:Hi;
    destruct (enc !! "attention_mask") as [[mask|mask]|] eqn:Hm;
    destruct (enc !! "token_type_ids") as [[types|types]|] eqn:Ht;
    try (rewrite (pad_batch_encoding_lists h data enc ids types mask max_len
                    Hl Hi Ht Hm);
         intros [= <- <-]; split; [reflexivity|]; eauto 10);
    unfold BucketIterator.pad_batch_encoding, enc_getitem, enc_setitem;
    rewrite ?Hl, ?Hi, ?Hm; cbn [rbind add_list]; try discriminate;
    rewrite ?Hl; cbn [rbind];
    rewrite ?(heap_lookup_update h data enc _ Hl);
    rewrite ?lookup_insert_ne by discriminate;
    rewrite ?Ht; cbn [rbind add_list]; try discriminate;
    rewrite ?list_insert_insert_eq;
    rewrite ?(heap_lookup_update h data enc _ Hl);
    rewrite ?lookup_insert_ne by discriminate;
    rewrite ?Hm; cbn [rbind add_list]; discriminate.
Qed.

Lemma pad_makes_tensor (data r : loc) (max_len : Z) (h h' : heap) :
  BucketIterator.pad_batch_encoding data max_len h = Ok (r, h') ->
  exists t : list Z,
    enc_getitem h' data "input_ids" = Ok (Tensor t) /\
    max_len <= Z.of_nat (length t).
Proof.
  intros Hpad.
  apply pad_batch_encoding_inv in Hpad
    as (_ & enc & ids & types & mask & Hl & _ & _ & _ & ->).
  eexists. unfold enc_getitem.
  rewrite (heap_lookup_update h data enc _ Hl). unfold padded.
  rewrite !lookup_insert_ne by discriminate. rewrite lookup_insert_eq.
  split; [reflexivity|].
  unfold times. rewrite length_app, repeat_length. lia.
Qed.

Lemma pad_keeps_tensor (data r : loc) (max_len : Z) (h h' : heap)
    (l : loc) (t : list Z) :
  BucketIterator.pad_batch_encoding data max_len h = Ok (r, h') ->
  enc_getitem h l "input_ids" = Ok (Tensor t) ->
  enc_getitem h' l "input_ids" = Ok (Tensor t).
Proof.
  intros Hpad Ht.
  apply pad_batch_encoding_inv in Hpad
    as (_ & enc & ids & types & mask & Hl & Hi & _ & _ & ->).
  destruct (decide (data = l)) as [<-|Hne].
  - unfold enc_getitem in Ht. rewrite Hl, Hi in Ht. discriminate.
  - unfold enc_getitem in *. now rewrite list_lookup_insert_ne.
Qed.

Lemma np_pad_inv {scalar : Type} (zero : scalar) (a a' : ndarray scalar)
    (w : Z) :
  np_pad zero a w w = Ok a' -> 0 <= w /\ shape a' = (rows a + Z.to_nat w, cols a + Z.to_nat w)%nat.
Proof.
  unfold np_pad. destruct (w <? 0) eqn:E; simpl; [discriminate|].
  intros [= <-]. split; [lia|reflexivity].
Qed.

Ltac bind_inv H :=
  let x := fresh "x" in
  let E := fresh "E" in
  apply rbind_Ok in H as (x & E & H);
  try (destruct x as [? ?]).

(** Whenever [pad_data] returns, under any sort key, its batch dictionary
    holds the first example of the chunk and nothing else. *)
Theorem pad_data_first_example_only {scalar : Type} (zero : scalar)
    (sort_key : string) (batch_data : list (Item.t scalar)) (h : heap) :
  match BucketIterator.pad_data zero sort_key batch_data h with
  | Ok (b, _) =>
      exists item rest,
        batch_data = item :: rest /\
        Batch.text_indices b = [Item.text_indices item] /\
        Batch.context_indices b = [Item.context_indices item] /\
        Batch.aspect_indices b = [Item.aspect_indices item] /\
        Batch.left_indices b = [Item.left_indices item] /\
        Batch.polarity b = [Item.polarity item] /\
        length (Batch.dependency_graph b) = 1%nat /\
        length (Batch.dependency_tree b) = 1%nat
  | Raise _ => True
  end.
Proof.
  destruct (BucketIterator.pad_data zero sort_key batch_data h)
    as [[b h']|e] eqn:H; [|exact I].
  unfold BucketIterator.pad_data in H.
  bind_inv H. bind_inv H.
  destruct batch_data as [|item rest]; [discriminate|].
  bind_inv H. bind_inv H. bind_inv H. bind_inv H.
  bind_inv H. bind_inv H. bind_inv H. bind_inv H.
  injection H as <- <-.
  repeat match goal with
         | E : BucketIterator.pad_batch_encoding _ _ _ = Ok _ |- _ =>
             apply pad_batch_encoding_inv in E as (-> & _)
         end.
  exists item, rest. simpl. repeat split; reflexivity.
Qed.

(** Whenever [pad_data] returns, under any sort key, the two matrices of
    its batch dictionary have the shapes that those of the first example
    had: nothing was added to them. *)
Theorem pad_data_keeps_shapes {scalar : Type} (zero : scalar)
    (sort_key : string) (batch_data : list (Item.t scalar)) (h : heap) :
  match BucketIterator.pad_data zero sort_key batch_data h with
  | Ok (b, _) =>
      exists item rest,
        batch_data = item :: rest /\
        map shape (Batch.dependency_graph b) = [shape (Item.dependency_graph item)] /\
        map shape (Batch.dependency_tree b) = [shape (Item.dependency_tree item)]
  | Raise _ => True
  end.
Proof.
  destruct (BucketIterator.pad_data zero sort_key batch_data h)
    as [[b h']|e] eqn:H; [|exact I].
  unfold BucketIterator.pad_data in H.
  bind_inv H. bind_inv H.
  destruct batch_data as [|item rest]; [discriminate|].
  bind_inv H. bind_inv H. bind_inv H. bind_inv H.
  match goal with
  | E1 : BucketIterator.pad_batch_encoding (Item.text_indices item) _ _ = Ok _,
    E2 : BucketIterator.pad_batch_encoding (Item.context_indices item) _ _ = Ok _,
    E3 : BucketIterator.pad_batch_encoding (Item.aspect_indices item) _ _ = Ok _,
    E4 : BucketIterator.pad_batch_encoding (Item.left_indices item) _ _ = Ok _ |- _ =>
      destruct (pad_makes_tensor _ _ _ _ _ E1) as (t & Ht & Hlen);
      pose proof (pad_keeps_tensor _ _ _ _ _ _ _ E2 Ht) as Ht2;
      pose proof (pad_keeps_tensor _ _ _ _ _ _ _ E3 Ht2) as Ht3;
      pose proof (pad_keeps_tensor _ _ _ _ _ _ _ E4 Ht3) as Ht4
  end.
  bind_inv H. bind_inv H. bind_inv H. bind_inv H.
  injection H as <- <-.
  repeat match goal with
         | E : enc_getitem _ _ _ = Ok ?v, Ht : enc_getitem _ _ _ = Ok (Tensor t) |- _ =>
             rewrite Ht in E; injection E as <-
         end.
  repeat match goal with
         | E : np_pad _ _ _ _ = Ok _ |- _ =>
             apply np_pad_inv in E as [? ?]
         end.
  exists item, rest. split; [reflexivity|]. simpl in *.
  match goal with
  | Hw : 0 <= ?m - Z.of_nat (length t) |- _ =>
      replace (Z.to_nat (m - Z.of_nat (length t))) with 0%nat in * by lia
  end.
  rewrite !Nat.add_0_r in *.
  split; f_equal; assumption.
Qed.

(** ** Sorting and cutting into batches *)

Section SortAndPad.
Context {scalar : Type}.
Variable zero : scalar.




Lemma sort_pairs_constant {A : Type} (c : Z) (l : list A) :
  BucketIterator.sort_pairs (map (fun x => (c, x)) l) = map (fun x => (c, x)) l.
Proof.
  induction l as [|x l IH]; [reflexivity|].
  cbn [map BucketIterator.sort_pairs fold_right] in *.
  unfold BucketIterator.sort_pairs in IH. rewrite IH.
  destruct l as [|y l]; simpl; [reflexivity|].
  now rewrite Z.leb_refl.
Qed.

Lemma combine_constant {A : Type} (c : Z) (keys : list Z) (l : list A) :
  length keys = length l -> Forall (fun k => k = c) keys ->
  combine keys l = map (fun x => (c, x)) l.
Proof.
  revert l. induction keys as [|k keys IH]; intros [|x l] Hlen Hall;
    simpl in *; try discriminate; [reflexivity|].
  apply Forall_cons in Hall as [-> Hall]. f_equal. apply IH; [lia|exact Hall].
Qed.

Lemma sort_keys_length (sort_key : string) (h : heap)
    (data : list (Item.t scalar)) (keys : list Z) :
  BucketIterator.sort_keys sort_key h data = Ok keys -> length keys = length data.
Proof.
  revert keys. induction data as [|x data IH]; intros keys H; simpl in H.
  - now injection H as <-.
  - bind_inv H. bind_inv H. bind_inv H. injection H as <-.
    simpl. f_equal. now apply IH.
Qed.


End SortAndPad.


(** With [sort=True], when the sort keys of the examples (the numbers of
    entries of their encodings) are all the same, construction does what
    it does with [sort=False]: the examples stay in the order of the
    dataset. *)
Theorem sort_of_equal_keys {scalar : Type} (zero : scalar)
    (data : ABSADataset.t (Item.t scalar)) (batch_size : Z)
    (sort_key : string) (h : heap) (keys : list Z) (c : Z) :
  BucketIterator.sort_keys sort_key h (ABSADataset.data data) = Ok keys ->
  Forall (fun k => k = c) keys ->
  BucketIterator.sort_and_pad zero true sort_key data batch_size h =
  BucketIterator.sort_and_pad zero false sort_key data batch_size h.
Proof.
  intros Hkeys Hall. unfold BucketIterator.sort_and_pad.
  destruct (batch_size =? 0); [reflexivity|].
  rewrite Hkeys. cbn [rbind].
  unfold BucketIterator.sorted_by_key.
  rewrite (combine_constant c) by (eauto using sort_keys_length).
  rewrite sort_pairs_constant, map_map. simpl. now rewrite map_id.
Qed.

Lemma sort_of_equal_keys_witness :
  BucketIterator.sort_and_pad 0 true "text_indices"
    (ABSADataset.__init__ [longer_item; shorter_item]) 1 sample_heap =
  BucketIterator.sort_and_pad 0 false "text_indices"
    (ABSADataset.__init__ [longer_item; shorter_item]) 1 sample_heap.
Proof.
  apply (sort_of_equal_keys 0 (ABSADataset.__init__ [longer_item; shorter_item])
           1 "text_indices" sample_heap [3; 3] 3).
  - vm_compute. reflexivity.
  - repeat constructor.
Defined.

(** ** More on the embedding matrix *)

Section EmbeddingMore.
Context {scalar : Type}.
Variable zero : scalar.
Variable float32 : string -> option scalar.
Variable uniform : nat -> list scalar.

Lemma set_row_cases (d : nat) (m : list (list scalar)) (idx : Z)
    (vec : list scalar) :
  match set_row d m idx vec with
  | Ok m' =>
      - Z.of_nat (length m) <= idx < Z.of_nat (length m) /\
      length m' = length m /\
      (Forall (fun row => length row = d) m ->
       Forall (fun row => length row = d) m')
  | Raise e =>
      e = IndexError /\ (idx < - Z.of_nat (length m) \/ Z.of_nat (length m) <= idx) \/
      e = ValueError /\ length vec <> d
  end.
Proof.
  unfold set_row.
  destruct (idx <? 0) eqn:Hneg.
  - destruct ((idx + Z.of_nat (length m) <? 0)
              || (Z.of_nat (length m) <=? idx + Z.of_nat (length m))) eqn:Hout;
      [left; split; [reflexivity|lia]|].
    destruct (Nat.eqb (length vec) d) eqn:Hlen.
    + apply Nat.eqb_eq in Hlen. split; [lia|].
      split; [apply length_insert|]. intros Hm. now apply Forall_insert.
    + apply Nat.eqb_neq in Hlen.
      destruct vec as [|x [|y vec]]; [right; auto| |right; auto].
      split; [lia|]. split; [apply length_insert|].
      intros Hm. apply Forall_insert; [exact Hm|apply repeat_length].
  - destruct ((idx <? 0) || (Z.of_nat (length m) <=? idx)) eqn:Hout;
      [left; split; [reflexivity|lia]|].
    destruct (Nat.eqb (length vec) d) eqn:Hlen.
    + apply Nat.eqb_eq in Hlen. split; [lia|].
      split; [apply length_insert|]. intros Hm. now apply Forall_insert.
    + apply Nat.eqb_neq in Hlen.
      destruct vec as [|x [|y vec]]; [right; auto| |right; auto].
      split; [lia|]. split; [apply length_insert|].
      intros Hm. apply Forall_insert; [exact Hm|apply repeat_length].
Qed.

Lemma fill_rows_shape (d : nat) (word_vec : gmap string (list scalar))
    (items : list (string * Z)) (m m' : list (list scalar)) :
  fill_rows d word_vec items m = Ok m' ->
  length m' = length m /\
  (Forall (fun row => length row = d) m -> Forall (fun row => length row = d) m').
Proof.
  revert m. induction items as [|[word idx] items IH]; intros m H; simpl in H.
  - injection H as <-. auto.
  - destruct (word_vec !! word) as [vec|]; [|now apply IH].
    pose proof (set_row_cases d m idx vec) as Hset.
    destruct (set_row d m idx vec) as [m1|e]; [|discriminate].
    simpl in H. destruct Hset as (_ & Hlen & Hrows).
    destruct (IH m1 H) as [Hlen' Hrows'].
    split; [congruence|auto].
Qed.

Lemma Forall_repeat {A : Type} (P : A -> Prop) (x : A) (n : nat) :
  P x -> Forall P (repeat x n).
Proof. intros Hx. induction n; simpl; constructor; auto. Qed.

(** Whenever [build_embedding_matrix] returns, the matrix has one row per
    vocabulary entry and every row has [embed_dim] numbers. *)
Theorem build_embedding_matrix_shape (fin : list string)
    (vocab : list (string * Z)) (embed_dim : nat) :
  match build_embedding_matrix zero float32 uniform fin vocab embed_dim with
  | Ok m =>
      length m = length vocab /\
      Forall (fun row => length row = embed_dim) m
  | Raise _ => True
  end.
Proof.
  destruct (build_embedding_matrix _ _ _ _ _ _) as [m|e] eqn:H; [|exact I].
  unfold build_embedding_matrix in H.
  pose proof (set_row_cases embed_dim
                (repeat (repeat zero embed_dim) (length vocab)) 1
                (uniform embed_dim)) as Hset.
  destruct (set_row _ _ 1 _) as [m1|e]; [|discriminate].
  cbn [rbind] in H. destruct Hset as (_ & Hlen & Hrows).
  destruct (load_word_vec _ _ _ _) as [wv|e]; [|discriminate].
  cbn [rbind] in H. apply fill_rows_shape in H as [Hlen' Hrows'].
  rewrite repeat_length in Hlen. split; [congruence|].
  apply Hrows', Hrows, Forall_repeat, repeat_length.
Qed.


End EmbeddingMore.


Section LoadWordVec.
Context {scalar : Type}.
Variable float32 : string -> option scalar.
Variable vocab : list (string * Z).
Variable d : nat.





End LoadWordVec.






(** ** More on padding one encoding *)

Lemma padded_lookups (enc : encoding) (ids types mask : list Z) (max_len : Z) :
  padded enc ids types mask max_len !! "input_ids" =
    Some (Tensor (ids ++ times 0 (max_len - Z.of_nat (length ids)))) /\
  padded enc ids types mask max_len !! "token_type_ids" =
    Some (Tensor (types ++ times 0 (max_len - Z.of_nat (length ids)))) /\
  padded enc ids types mask max_len !! "attention_mask_pad" =
    Some (Tensor (mask ++ times 1 (max_len - Z.of_nat (length mask)))) /\
  forall key : string,
    key <> "input_ids" -> key <> "token_type_ids" ->
    key <> "attention_mask_pad" ->
    padded enc ids types mask max_len !! key = enc !! key.
Proof.
  unfold padded. split; [|split; [|split]].
  - rewrite !lookup_insert_ne by discriminate. apply lookup_insert_eq.
  - rewrite lookup_insert_ne by discriminate. apply lookup_insert_eq.
  - apply lookup_insert_eq.
  - intros key K1 K2 K3. now rewrite !lookup_insert_ne by congruence.
Qed.

(** [pad_batch_encoding] never shortens: for every [max_len], also one
    smaller than the sequences, the input ids and the padded mask keep
    their elements and get the length [max(len, max_len)]; the token type
    ids get as many 0s as the input ids do, whatever their own length. *)
Theorem pad_batch_encoding_lengths (h : heap) (data : loc) (enc : encoding)
    (ids types mask : list Z) (max_len : Z) :
  h !! data = Some enc ->
  enc !! "input_ids" = Some (PyList ids) ->
  enc !! "token_type_ids" = Some (PyList types) ->
  enc !! "attention_mask" = Some (PyList mask) ->
  exists (h' : heap) (ids' types' mask' : list Z),
    BucketIterator.pad_batch_encoding data max_len h = Ok (data, h') /\
    enc_getitem h' data "input_ids" = Ok (Tensor ids') /\
    enc_getitem h' data "token_type_ids" = Ok (Tensor types') /\
    enc_getitem h' data "attention_mask_pad" = Ok (Tensor mask') /\
    take (length ids) ids' = ids /\
    take (length types) types' = types /\
    take (length mask) mask' = mask /\
    Z.of_nat (length ids') = Z.max (Z.of_nat (length ids)) max_len /\
    Z.of_nat (length mask') = Z.max (Z.of_nat (length mask)) max_len /\
    Z.of_nat (length types') =
      Z.of_nat (length types) + Z.max 0 (max_len - Z.of_nat (length ids)).
Proof.
  intros Hl Hi Ht Hm.
  destruct (padded_lookups enc ids types mask max_len) as (P1 & P2 & P3 & _).
  eexists _, _, _, _.
  split; [exact (pad_batch_encoding_lists h data enc ids types mask max_len
                   Hl Hi Ht Hm)|].
  unfold enc_getitem. rewrite (heap_lookup_update h data enc _ Hl).
  rewrite P1, P2, P3.
  repeat (split; [reflexivity|]).
  repeat (split; [now rewrite take_app_length|]).
  unfold times. rewrite !length_app, !repeat_length. lia.
Qed.

Lemma pad_batch_encoding_lengths_witness :
  exists (h' : heap) (ids' types' mask' : list Z),
    BucketIterator.pad_batch_encoding 0%nat 1 [sample_encoding [11; 12]]
      = Ok (0%nat, h') /\
    enc_getitem h' 0%nat "input_ids" = Ok (Tensor ids') /\
    enc_getitem h' 0%nat "token_type_ids" = Ok (Tensor types') /\
    enc_getitem h' 0%nat "attention_mask_pad" = Ok (Tensor mask') /\
    take (length [11; 12]) ids' = [11; 12] /\
    take (length [0; 0]) types' = [0; 0] /\
    take (length [1; 1]) mask' = [1; 1] /\
    Z.of_nat (length ids') = Z.max (Z.of_nat (length [11; 12])) 1 /\
    Z.of_nat (length mask') = Z.max (Z.of_nat (length [1; 1])) 1 /\
    Z.of_nat (length types') =
      Z.of_nat (length [0; 0]) + Z.max 0 (1 - Z.of_nat (length [11; 12])).
Proof.
  apply (pad_batch_encoding_lengths [sample_encoding [11; 12]] 0%nat
           (sample_encoding [11; 12]) [11; 12] [0; 0] [1; 1] 1);
    reflexivity.
Defined.

Lemma pad_on_tensor (h : heap) (data : loc) (max_len : Z) (t : list Z)
    (v : seq_value) :
  enc_getitem h data "input_ids" = Ok (Tensor t) ->
  enc_getitem h data "attention_mask" = Ok v ->
  BucketIterator.pad_batch_encoding data max_len h = Raise TypeError.
Proof.
  intros Hi Hm. unfold BucketIterator.pad_batch_encoding.
  rewrite Hi. cbn [rbind]. rewrite Hm. cbn [rbind add_list]. reflexivity.
Qed.

(** An encoding can be padded once: after a call of [pad_batch_encoding]
    that returned, a second call on the same encoding raises [TypeError],
    for every [max_len] (the input ids are a tensor by then, to which a
    list cannot be added). *)
Theorem pad_batch_encoding_twice (h : heap) (data : loc) (max_len max_len' : Z) :
  match BucketIterator.pad_batch_encoding data max_len h with
  | Ok (r, h') =>
      BucketIterator.pad_batch_encoding r max_len' h' = Raise TypeError
  | Raise _ => True
  end.
Proof.
  destruct (BucketIterator.pad_batch_encoding data max_len h)
    as [[r h']|e] eqn:H; [|exact I].
  apply pad_batch_encoding_inv in H
    as (-> & enc & ids & types & mask & Hl & Hi & Ht & Hm & ->).
  destruct (padded_lookups enc ids types mask max_len) as (P1 & _ & _ & Pk).
  eapply pad_on_tensor; unfold enc_getitem;
    rewrite (heap_lookup_update h data enc _ Hl).
  - rewrite P1. reflexivity.
  - rewrite Pk by discriminate. rewrite Hm. reflexivity.
Qed.

(** An encoding that lacks one of the keys ["input_ids"],
    ["attention_mask"], ["token_type_ids"] (a tokenizer without token
    type ids, say) and whose other sequences are lists makes
    [pad_batch_encoding] raise [KeyError]. *)
Theorem pad_batch_encoding_missing_key (h : heap) (data : loc)
    (enc : encoding) (max_len : Z) :
  h !! data = Some enc ->
  (forall key, key ∈ ["input_ids"; "attention_mask"; "token_type_ids"] ->
     enc !! key = None \/ exists l, enc !! key = Some (PyList l)) ->
  (exists key, key ∈ ["input_ids"; "attention_mask"; "token_type_ids"] /\
     enc !! key = None) ->
  BucketIterator.pad_batch_encoding data max_len h = Raise KeyError.
Proof.
  intros Hl Hkeys Hmiss.
  destruct (BucketIterator.pad_batch_encoding data max_len h)
    as [[r h']|e] eqn:H.
  - apply pad_batch_encoding_inv in H
      as (_ & enc' & ids & types & mask & Hl' & Hi & Ht & Hm & _).
    assert (enc' = enc) as -> by congruence.
    destruct Hmiss as (key & Hin & Hnone).
    repeat (apply elem_of_cons in Hin as [->|Hin]; [congruence|]).
    inversion Hin.
  - f_equal. revert H.
    unfold BucketIterator.pad_batch_encoding, enc_getitem, enc_setitem.
    rewrite Hl.
    destruct (Hkeys "input_ids") as [Hi|[ids Hi]]; [compute_done| |];
      rewrite Hi; cbn [rbind]; [congruence|].
    destruct (Hkeys "attention_mask") as [Hm|[mask Hm]]; [compute_done| |];
      rewrite Hm; cbn [rbind add_list]; [congruence|].
    rewrite (heap_lookup_update h data enc _ Hl).
    rewrite lookup_insert_ne by discriminate.
    destruct (Hkeys "token_type_ids") as [Ht|[types Ht]]; [compute_done| |];
      rewrite Ht; cbn [rbind add_list]; [congruence|].
    exfalso. destruct Hmiss as (key & Hin & Hnone).
    repeat (apply elem_of_cons in Hin as [->|Hin]; [congruence|]).
    inversion Hin.
Qed.

Lemma pad_batch_encoding_missing_key_witness :
  BucketIterator.pad_batch_encoding 0%nat 3
    [<["input_ids" := PyList [11; 12]]>
       (<["attention_mask" := PyList [1; 1]]> ∅)] = Raise KeyError.
Proof.
  apply (pad_batch_encoding_missing_key
           [<["input_ids" := PyList [11; 12]]>
              (<["attention_mask" := PyList [1; 1]]> ∅)] 0%nat
           (<["input_ids" := PyList [11; 12]]>
              (<["attention_mask" := PyList [1; 1]]> ∅)) 3).
  - reflexivity.
  - intros key Hin.
    repeat (apply elem_of_cons in Hin as [->|Hin];
            [first [left; reflexivity | right; eexists; reflexivity]|]).
    inversion Hin.
  - exists "token_type_ids". split; [compute_done|reflexivity].
Defined.

(** ** More on padding a batch *)

Section PadDataMore.
Context {scalar : Type}.
Variable zero : scalar.

Lemma pad_frame (data r : loc) (max_len : Z) (h h' : heap) :
  BucketIterator.pad_batch_encoding data max_len h = Ok (r, h') ->
  length h' = length h /\
  (forall l : loc, l <> data -> h' !! l = h !! l) /\
  (forall (l : loc) (key : string),
     key <> "input_ids" -> key <> "token_type_ids" ->
     key <> "attention_mask_pad" ->
     enc_getitem h' l key = enc_getitem h l key) /\
  (forall (l : loc) (v : seq_value),
     enc_getitem h l "input_ids" = Ok v ->
     exists v', enc_getitem h' l "input_ids" = Ok v').
Proof.
  intros H.
  apply pad_batch_encoding_inv in H
    as (_ & enc & ids & types & mask & Hl & Hi & Ht & Hm & ->).
  destruct (padded_lookups enc ids types mask max_len) as (P1 & _ & _ & Pk).
  split; [apply length_insert|]. split; [|split].
  - intros l Hne. now apply list_lookup_insert_ne.
  - intros l key K1 K2 K3. unfold enc_getitem.
    destruct (decide (data = l)) as [<-|Hne].
    + rewrite (heap_lookup_update h data enc _ Hl), Hl. now rewrite Pk.
    + now rewrite list_lookup_insert_ne.
  - intros l v Hv. unfold enc_getitem.
    destruct (decide (data = l)) as [<-|Hne].
    + rewrite (heap_lookup_update h data enc _ Hl), P1. eauto.
    + rewrite list_lookup_insert_ne by exact Hne. eauto.
Qed.

(** Whenever [pad_data] returns, the store has changed at the four
    encodings of the first example at most; in every encoding, the
    entries other than ["input_ids"], ["token_type_ids"] and
    ["attention_mask_pad"] are as they were. *)
Theorem pad_data_frame (sort_key : string)
    (batch_data : list (Item.t scalar)) (h : heap) :
  match BucketIterator.pad_data zero sort_key batch_data h with
  | Ok (_, h') =>
      length h' = length h /\
      (exists item rest,
         batch_data = item :: rest /\
         forall l : loc, l ∉ fields item -> h' !! l = h !! l) /\
      (forall (l : loc) (key : string),
         key <> "input_ids" -> key <> "token_type_ids" ->
         key <> "attention_mask_pad" ->
         enc_getitem h' l key = enc_getitem h l key)
  | Raise _ => True
  end.
Proof.
  destruct (BucketIterator.pad_data zero sort_key batch_data h)
    as [[b h']|e] eqn:H; [|exact I].
  unfold BucketIterator.pad_data in H.
  bind_inv H. bind_inv H.
  destruct batch_data as [|item rest]; [discriminate|].
  bind_inv H. bind_inv H. bind_inv H. bind_inv H.
  bind_inv H. bind_inv H. bind_inv H. bind_inv H.
  injection H as _ <-.
  repeat match goal with
         | E : BucketIterator.pad_batch_encoding _ _ _ = Ok _ |- _ =>
             apply pad_frame in E as (? & ? & ? & _)
         end.
  split; [congruence|]. split.
  - exists item, rest. split; [reflexivity|].
    intros p Hp. unfold fields in Hp.
    rewrite !not_elem_of_cons in Hp. destruct Hp as (? & ? & ? & ? & _).
    repeat match goal with
           | Hf : forall l : nat, l <> _ -> _ !! l = _ !! l |- _ =>
               rewrite Hf by assumption; clear Hf
           end.
    reflexivity.
  - intros p key K1 K2 K3.
    repeat match goal with
           | Hf : forall (l : nat) (key : string), _ -> _ -> _ -> _ = _ |- _ =>
               rewrite Hf by assumption; clear Hf
           end.
    reflexivity.
Qed.

Lemma key_lengths_readable (sort_key : string) (h h' : heap)
    (batch_data : list (Item.t scalar)) (lens : list Z) :
  (forall (l : loc) (v : seq_value),
     enc_getitem h l "input_ids" = Ok v ->
     exists v', enc_getitem h' l "input_ids" = Ok v') ->
  BucketIterator.key_lengths sort_key h batch_data = Ok lens ->
  exists lens',
    BucketIterator.key_lengths sort_key h' batch_data = Ok lens' /\
    length lens' = length lens.
Proof.
  intros Hread. revert lens.
  induction batch_data as [|t rest IH]; intros lens H; simpl in H.
  - injection H as <-. exists []. split; reflexivity.
  - bind_inv H. bind_inv H. bind_inv H. injection H as <-.
    destruct (IH _ E1) as (lens' & Hl' & Hlen).
    cbn [BucketIterator.key_lengths]. rewrite E. cbn [rbind].
    destruct x as [l|z|a]; simpl in E0; try discriminate.
    destruct (Hread l _ E0) as [v' Hv'].
    simpl. rewrite Hv'. cbn [rbind]. rewrite Hl'. cbn [rbind].
    eexists. split; [reflexivity|]. simpl. now rewrite Hlen.
Qed.

(** A chunk can be padded once: after a call of [pad_data] that
    returned, a second call on the same chunk raises [TypeError]: the
    encodings of its first example are tensors by then. *)
Theorem pad_data_twice (sort_key : string)
    (batch_data : list (Item.t scalar)) (h : heap) :
  match BucketIterator.pad_data zero sort_key batch_data h with
  | Ok (_, h') =>
      BucketIterator.pad_data zero sort_key batch_data h' = Raise TypeError
  | Raise _ => True
  end.
Proof.
  destruct (BucketIterator.pad_data zero sort_key batch_data h)
    as [[b h']|e] eqn:H; [|exact I].
  unfold BucketIterator.pad_data in H.
  bind_inv H. bind_inv H.
  destruct batch_data as [|item rest]; [discriminate|].
  bind_inv H. bind_inv H. bind_inv H. bind_inv H.
  bind_inv H. bind_inv H. bind_inv H. bind_inv H.
  injection H as _ Hfinal.
  match goal with
  | Hf : ?hf = h' |- _ => subst hf
  end.
  match goal with
  | E1 : BucketIterator.pad_batch_encoding (Item.text_indices item) _ _ = Ok _,
    E2 : BucketIterator.pad_batch_encoding (Item.context_indices item) _ _ = Ok _,
    E3 : BucketIterator.pad_batch_encoding (Item.aspect_indices item) _ _ = Ok _,
    E4 : BucketIterator.pad_batch_encoding (Item.left_indices item) _ _ = Ok _ |- _ =>
      destruct (pad_makes_tensor _ _ _ _ _ E1) as (t & Ht & _);
      pose proof (pad_keeps_tensor _ _ _ _ _ _ _ E2 Ht) as Ht2;
      pose proof (pad_keeps_tensor _ _ _ _ _ _ _ E3 Ht2) as Ht3;
      pose proof (pad_keeps_tensor _ _ _ _ _ _ _ E4 Ht3) as Ht4;
      pose proof (pad_batch_encoding_inv _ _ _ _ _ E1)
        as (_ & enc & ids & types & mask & Hl & _ & _ & Hm & _);
      apply pad_frame in E1 as (_ & _ & K1 & R1);
      apply pad_frame in E2 as (_ & _ & K2 & R2);
      apply pad_frame in E3 as (_ & _ & K3 & R3);
      apply pad_frame in E4 as (_ & _ & K4 & R4)
  end.
  match goal with
  | E : BucketIterator.key_lengths _ h _ = Ok ?lens |- _ =>
      destruct (key_lengths_readable sort_key h h' (item :: rest) lens)
        as (lens' & Hlens' & Hlen); [|exact E|]
  end.
  { intros p v Hv.
    destruct (R1 p v Hv) as [v1 Hv1]. destruct (R2 p v1 Hv1) as [v2 Hv2].
    destruct (R3 p v2 Hv2) as [v3 Hv3]. exact (R4 p v3 Hv3). }
  unfold BucketIterator.pad_data. rewrite Hlens'. cbn [rbind].
  destruct lens' as [|len0 lens'].
  { exfalso. revert Hlens'. cbn [BucketIterator.key_lengths].
    destruct (Item.getitem item sort_key); [|discriminate]. cbn [rbind].
    destruct (Item.subscript h' _ _); [|discriminate]. cbn [rbind].
    destruct (BucketIterator.key_lengths sort_key h' rest); discriminate. }
  cbn [BucketIterator.py_max rbind].
  rewrite (pad_on_tensor h' (Item.text_indices item) _ t (PyList mask));
    [reflexivity|exact Ht4|].
  rewrite K4, K3, K2, K1 by discriminate.
  unfold enc_getitem. now rewrite Hl, Hm.
Qed.

End PadDataMore.

(** ** Construction at the edges *)

Section ConstructionEdges.
Context {scalar : Type}.
Variable zero : scalar.


Lemma num_batches_negative (n b : Z) :
  0 <= n -> b < 0 -> BucketIterator.num_batches n b = 0%nat.
Proof.
  intros Hn Hb. unfold BucketIterator.num_batches.
  assert (0 <= (- n) / b).
  { rewrite <- (Z.opp_involutive b), Z.div_opp_opp by lia.
    apply Z.div_pos; lia. }
  lia.
Qed.

(** Over an empty dataset, construction returns an iterator without
    batches and leaves the store alone, for every batch size but 0, which
    raises [ZeroDivisionError] even then. *)
Theorem construction_empty_dataset (batch_size : Z) (sort_key : string)
    (shuffle sort : bool) (h : heap) :
  BucketIterator.__init__ zero (ABSADataset.__init__ []) batch_size sort_key
    shuffle sort h =
  if batch_size =? 0 then Raise ZeroDivisionError
  else Ok ({| BucketIterator.shuffle := shuffle; BucketIterator.sort := sort;
              BucketIterator.sort_key := sort_key;
              BucketIterator.batches := []; BucketIterator.batch_len := 0 |}, h).
Proof.
  unfold BucketIterator.__init__, BucketIterator.sort_and_pad.
  destruct (batch_size =? 0); [reflexivity|].
  destruct sort; reflexivity.
Qed.

(** A negative batch size is not refused: with [sort=False], construction
    returns an iterator without batches, whatever the dataset holds, and
    leaves the store alone. *)
Theorem construction_negative_batch_size
    (data : ABSADataset.t (Item.t scalar)) (batch_size : Z)
    (sort_key : string) (shuffle : bool) (h : heap) :
  batch_size < 0 ->
  BucketIterator.__init__ zero data batch_size sort_key shuffle false h =
  Ok ({| BucketIterator.shuffle := shuffle; BucketIterator.sort := false;
         BucketIterator.sort_key := sort_key;
         BucketIterator.batches := []; BucketIterator.batch_len := 0 |}, h).
Proof.
  intros Hb. unfold BucketIterator.__init__, BucketIterator.sort_and_pad.
  replace (batch_size =? 0) with false by lia.
  rewrite num_batches_negative by (unfold ABSADataset.__len__; lia).
  reflexivity.
Qed.






End ConstructionEdges.

Lemma construction_negative_batch_size_witness :
  BucketIterator.__init__ 0 (ABSADataset.__init__ [longer_item; shorter_item])
    (-2) "text_indices" true false sample_heap =
  Ok ({| BucketIterator.shuffle := true; BucketIterator.sort := false;
         BucketIterator.sort_key := "text_indices";
         BucketIterator.batches := []; BucketIterator.batch_len := 0 |},
      sample_heap).
Proof.
  apply (construction_negative_batch_size 0
           (ABSADataset.__init__ [longer_item; shorter_item]) (-2)
           "text_indices" true sample_heap).
  lia.
Defined.


(** ** More on traversal *)

Section TraversalMore.
Context {scalar : Type}.
Variable source : nat -> nat.

(** Without shuffling, a traversal yields the batches in the order of
    construction, leaves the iterator as it was and draws no random
    number. *)
Theorem traverse_without_shuffle (self : BucketIterator.t scalar) (drawn : nat) :
  BucketIterator.shuffle self = false ->
  length (BucketIterator.batches self) = BucketIterator.batch_len self ->
  BucketIterator.traverse source self drawn =
    Some (BucketIterator.batches self, self, drawn).
Proof.
  intros Hs Hlen. unfold BucketIterator.traverse, BucketIterator.__iter__.
  rewrite drain_created, Hs.
  rewrite drain_suspended by (assumption || lia).
  now rewrite drop_0.
Qed.

Lemma shuffle_from_draws {A : Type} (i : nat) (x : list A) (drawn : nat) :
  snd (Random.shuffle_from source i x drawn) = (drawn + i)%nat /\
  length (fst (Random.shuffle_from source i x drawn)) = length x.
Proof.
  revert x drawn. induction i as [|i IH]; intros x drawn.
  - simpl. split; [lia|reflexivity].
  - cbn [Random.shuffle_from Random.randbelow].
    destruct (IH (Random.swap x (S i) (source drawn mod S (S i))) (S drawn))
      as [Hd Hl].
    rewrite Hd, Hl. split; [lia|].
    apply Permutation_length, swap_Permutation.
Qed.

(** With shuffling, a traversal permutes the iterator's own list: after
    it, [self.batches] is in the order that was just yielded, nothing
    else of the iterator has changed, and [len - 1] random numbers were
    drawn (none when there is at most one batch). *)
Theorem traverse_with_shuffle (self : BucketIterator.t scalar) (drawn : nat) :
  BucketIterator.shuffle self = true ->
  length (BucketIterator.batches self) = BucketIterator.batch_len self ->
  exists ys : list (Batch.t scalar),
    BucketIterator.traverse source self drawn =
      Some (ys,
            {| BucketIterator.shuffle := true;
               BucketIterator.sort := BucketIterator.sort self;
               BucketIterator.sort_key := BucketIterator.sort_key self;
               BucketIterator.batches := ys;
               BucketIterator.batch_len := BucketIterator.batch_len self |},
            (drawn + (BucketIterator.batch_len self - 1))%nat) /\
    ys ≡ₚ BucketIterator.batches self.
Proof.
  intros Hs Hlen. unfold BucketIterator.traverse, BucketIterator.__iter__.
  rewrite drain_created, Hs. unfold BucketIterator.shuffle_batches.
  pose proof (shuffle_Permutation source (BucketIterator.batches self) drawn) as HP.
  pose proof (shuffle_from_draws (length (BucketIterator.batches self) - 1)
                (BucketIterator.batches self) drawn) as [Hd _].
  unfold Random.shuffle in *.
  destruct (Random.shuffle_from source _ (BucketIterator.batches self) drawn)
    as [ys drawn'].
  simpl in HP, Hd. subst drawn'. rewrite Hs, Hlen.
  exists ys. split; [|exact HP].
  rewrite drain_suspended.
  - now rewrite drop_0.
  - simpl. rewrite <- Hlen. now apply Permutation_length.
  - simpl. lia.
  - simpl. lia.
Qed.

End TraversalMore.

Lemma traverse_without_shuffle_witness :
  BucketIterator.traverse sample_draws
    {| BucketIterator.shuffle := false; BucketIterator.sort := true;
       BucketIterator.sort_key := "text_indices";
       BucketIterator.batches := [batch_a; batch_b];
       BucketIterator.batch_len := 2 |} 0 =
  Some ([batch_a; batch_b],
        {| BucketIterator.shuffle := false; BucketIterator.sort := true;
           BucketIterator.sort_key := "text_indices";
           BucketIterator.batches := [batch_a; batch_b];
           BucketIterator.batch_len := 2 |}, 0%nat).
Proof.
  apply (traverse_without_shuffle sample_draws
           {| BucketIterator.shuffle := false; BucketIterator.sort := true;
              BucketIterator.sort_key := "text_indices";
              BucketIterator.batches := [batch_a; batch_b];
              BucketIterator.batch_len := 2 |} 0);
    reflexivity.
Defined.

Lemma traverse_with_shuffle_witness :
  exists ys : list (Batch.t Z),
    BucketIterator.traverse sample_draws two_batches 1 =
      Some (ys,
            {| BucketIterator.shuffle := true;
               BucketIterator.sort := BucketIterator.sort two_batches;
               BucketIterator.sort_key := BucketIterator.sort_key two_batches;
               BucketIterator.batches := ys;
               BucketIterator.batch_len := BucketIterator.batch_len two_batches |},
            (1 + (BucketIterator.batch_len two_batches - 1))%nat) /\
    ys ≡ₚ BucketIterator.batches two_batches.
Proof.
  apply (traverse_with_shuffle sample_draws two_batches 1); reflexivity.
Defined.

(** ** Iterating over the dataset *)

Lemma iterate_from {E : Type} (examples : list E) (fuel i : nat) :
  (i <= length examples)%nat ->
  (length examples < fuel + i)%nat ->
  ABSADataset.iterate fuel (ABSADataset.__init__ examples) (Z.of_nat i) =
    Some (Ok (drop i examples)).
Proof.
  revert i. induction fuel as [|fuel IH]; intros i Hi Hfuel; [lia|].
  cbn [ABSADataset.iterate].
  destruct (decide (i = length examples)) as [->|Hne].
  - unfold ABSADataset.__getitem__. simpl.
    rewrite getitem_outside by lia. now rewrite drop_all.
  - destruct (lookup_lt_is_Some_2 examples i) as [x Hx]; [lia|].
    unfold ABSADataset.__getitem__. simpl.
    rewrite (getitem_lookup examples i x Hx).
    replace (Z.of_nat i + 1) with (Z.of_nat (S i)) by lia.
    fold (ABSADataset.__init__ examples).
    rewrite IH by lia. now rewrite (drop_S _ _ _ Hx).
Qed.

(** [for x in dataset], which goes through [__getitem__] with the
    indices 0, 1, 2, ... until [IndexError], visits the examples of the
    list the dataset was built over, each once and in order, and ends
    after [len + 1] requests. *)
Theorem dataset_iteration {E : Type} (examples : list E) :
  ABSADataset.iterate (S (length examples)) (ABSADataset.__init__ examples) 0
    = Some (Ok examples).
Proof.
  change 0 with (Z.of_nat 0). rewrite iterate_from by lia. now rewrite drop_0.
Qed.

(** ** More on the dataset reader *)

Section ReaderMore.
Context {scalar : Type}.
Variable tokenizer : string -> encoding.
Variable lines : list string.
Variables idx2graph idx2tree : gmap Z (ndarray scalar).

Lemma getitem_Ok_bound {A : Type} (l : list A) (i : Z) (x : A) :
  0 <= i -> Py.getitem l i = Ok x -> i < Z.of_nat (length l).
Proof.
  intros Hi H. destruct (Z_lt_ge_dec i (Z.of_nat (length l))) as [Hlt|Hge];
    [exact Hlt|].
  rewrite getitem_outside in H by lia. discriminate.
Qed.

(** What a successful pass through the body of the loop has done *)
Lemma read_record_inv (i : Z) (h h' : heap) (item : Item.t scalar) :
  0 <= i ->
  ABSADatasetReader.read_record tokenizer lines idx2graph idx2tree i h
    = Ok (item, h') ->
  i + 2 < Z.of_nat (length lines) /\
  fields item = seq (length h) 4 /\
  exists s1 s2 s3 s4 : string,
    h' = h ++ [tokenizer s1; tokenizer s2; tokenizer s3; tokenizer s4].
Proof.
  intros Hi H. unfold ABSADatasetReader.read_record in H.
  bind_inv H.
  destruct (Str.partition x "$T$") as [[l m] r].
  bind_inv H. bind_inv H.
  match goal with
  | E : Py.getitem lines (i + 2) = Ok _ |- _ =>
      apply getitem_Ok_bound in E; [|lia]
  end.
  unfold alloc in H. bind_inv H. bind_inv H. bind_inv H.
  injection H as <- <-.
  split; [lia|]. split.
  - unfold fields. simpl. rewrite !length_app. simpl.
    repeat f_equal; lia.
  - eexists _, _, _, _. now rewrite <- !app_assoc.
Qed.

Lemma read_records_inv (indices : list Z) (h h' : heap)
    (data : list (Item.t scalar)) :
  Forall (fun i => 0 <= i) indices ->
  ABSADatasetReader.read_records tokenizer lines idx2graph idx2tree indices h
    = Ok (data, h') ->
  length data = length indices /\
  Forall (fun i => i + 2 < Z.of_nat (length lines)) indices /\
  concat (map fields data) = seq (length h) (4 * length data) /\
  exists texts : list string,
    length texts = (4 * length data)%nat /\ h' = h ++ map tokenizer texts.
Proof.
  intros Hpos. revert h data.
  induction Hpos as [|i indices Hi _ IH]; intros h data H; simpl in H.
  - injection H as <- <-. repeat split; [constructor|].
    exists []. split; [reflexivity|]. simpl. now rewrite app_nil_r.
  - bind_inv H. bind_inv H. injection H as <- <-.
    match goal with
    | E : ABSADatasetReader.read_record _ _ _ _ _ _ = Ok _ |- _ =>
        apply read_record_inv in E as (Hb & Hf & s1 & s2 & s3 & s4 & ->);
        [|exact Hi]
    end.
    match goal with
    | E : ABSADatasetReader.read_records _ _ _ _ _ _ = Ok _ |- _ =>
        apply IH in E as (Hlen & Hall & Hlocs & texts & Htexts & ->)
    end.
    split; [simpl; now rewrite Hlen|].
    split; [now constructor|]. split.
    + cbn [map concat]. rewrite Hf, Hlocs. rewrite length_app. simpl length.
      match goal with
      | |- context [(4 * S ?n)%nat] =>
          replace (4 * S n)%nat with (4 + 4 * n)%nat by lia
      end.
      now rewrite seq_app.
    + exists (s1 :: s2 :: s3 :: s4 :: texts).
      split; [simpl; lia|]. now rewrite <- app_assoc.
Qed.

(** Whenever [__read_data__] returns: the raw file had three lines per
    example (an incomplete last record is never dropped silently); the
    store is the one before followed by four new encodings per example,
    all of them outputs of the tokenizer; and the encodings of the
    examples, field after field and example after example, are exactly
    those new objects, each used once. *)
Theorem read_data_store (h : heap) :
  match ABSADatasetReader.__read_data__ tokenizer lines idx2graph idx2tree h with
  | Ok (data, h') =>
      (3 * length data)%nat = length lines /\
      concat (map fields data) = seq (length h) (4 * length data) /\
      exists texts : list string,
        length texts = (4 * length data)%nat /\
        h' = h ++ map tokenizer texts
  | Raise _ => True
  end.
Proof.
  destruct (ABSADatasetReader.__read_data__ _ _ _ _ _) as [[data h']|e] eqn:H;
    [|exact I].
  unfold ABSADatasetReader.__read_data__, Py.range in H.
  apply read_records_inv in H as (Hlen & Hall & Hlocs & Hext).
  2:{ apply Forall_map, Forall_forall. intros k _. simpl. lia. }
  split; [|split; assumption].
  rewrite length_map, length_seq in Hlen.
  set (n := Z.of_nat (length lines)) in *.
  assert (Hq : 3 * ((n + 2) / 3) <= n + 2 < 3 * ((n + 2) / 3) + 3).
  { pose proof (Z.mul_div_le (n + 2) 3 ltac:(lia)).
    pose proof (Z.mul_succ_div_gt (n + 2) 3 ltac:(lia)). lia. }
  destruct (length data) as [|c] eqn:Hc.
  - replace (n - 0 + 3 - 1) with (n + 2) in Hlen by lia. lia.
  - replace (n - 0 + 3 - 1) with (n + 2) in Hlen, Hall by lia.
    rewrite <- Hlen in Hall.
    apply Forall_map in Hall.
    pose proof (proj1 (Forall_forall _ _) Hall c) as Hlast. simpl in Hlast.
    assert (c ∈ seq 0 (S c)) as Hin by (apply elem_of_seq; lia).
    specialize (Hlast Hin). lia.
Qed.

End ReaderMore.

Section ReaderErrors.
Context {scalar : Type}.
Variable tokenizer : string -> encoding.
Variable lines : list string.
Variables idx2graph idx2tree : gmap Z (ndarray scalar).

Lemma range_by_threes (len : nat) :
  Py.range 0 (Z.of_nat len) 3 =
    map (fun k => Z.of_nat (3 * k)) (seq 0 ((len + 2) / 3)).
Proof.
  unfold Py.range.
  replace (Z.to_nat ((Z.of_nat len - 0 + 3 - 1) / 3)) with ((len + 2) / 3)%nat.
  - apply map_ext. intros k. lia.
  - replace (Z.of_nat len - 0 + 3 - 1) with (Z.of_nat (len + 2)) by lia.
    change 3 with (Z.of_nat 3). rewrite <- Nat2Z.inj_div. lia.
Qed.

(** The records before [n] are read; then the record [n] fails. *)
Lemma read_records_failure (n m a : nat) (h : heap) (e : exn) :
  (forall k : nat,
     (k < n)%nat ->
     (3 * k + 2 < length lines)%nat /\
     (forall label, lines !! (3 * k + 2)%nat = Some label ->
                    exists p : Z, Str.int (trimmed label) = Ok p) /\
     is_Some (idx2graph !! Z.of_nat (3 * k)) /\
     is_Some (idx2tree !! Z.of_nat (3 * k))) ->
  (forall h' : heap,
     ABSADatasetReader.read_record tokenizer lines idx2graph idx2tree
       (Z.of_nat (3 * n)) h' = Raise e) ->
  (a <= n)%nat -> (n < a + m)%nat ->
  ABSADatasetReader.read_records tokenizer lines idx2graph idx2tree
    (map (fun k => Z.of_nat (3 * k)) (seq a m)) h = Raise e.
Proof.
  intros Hgood Hfail. revert a h.
  induction m as [|m IH]; intros a h Ha Hm; [lia|].
  cbn [seq map ABSADatasetReader.read_records].
  destruct (decide (a = n)) as [->|Hne].
  - now rewrite Hfail.
  - destruct (Hgood a) as (Hlen & Hpol & [g Hg] & [t Ht]); [lia|].
    destruct (lookup_lt_is_Some_2 lines (3 * a)) as [s Hs]; [lia|].
    destruct (lookup_lt_is_Some_2 lines (3 * a + 1)) as [asp Hasp]; [lia|].
    destruct (lookup_lt_is_Some_2 lines (3 * a + 2)) as [lab Hlab]; [lia|].
    destruct (Hpol lab Hlab) as [p Hp].
    destruct (read_record_ok tokenizer lines idx2graph idx2tree h (3 * a)
                s asp lab p g t Hs Hasp Hlab Hp Hg Ht)
      as (item & ext & Hrec & _).
    rewrite Hrec. cbn [rbind].
    rewrite (IH (S a)) by lia. reflexivity.
Qed.

(** A raw file whose number of lines is not a multiple of three makes
    the reader raise [IndexError] once the complete records before the
    incomplete one have been read: nothing is returned for them. *)
Theorem read_data_incomplete_record (n r : nat) (h : heap) :
  (r = 1 \/ r = 2)%nat ->
  length lines = (3 * n + r)%nat ->
  (forall k : nat,
     (k < n)%nat ->
     (forall label, lines !! (3 * k + 2)%nat = Some label ->
                    exists p : Z, Str.int (trimmed label) = Ok p) /\
     is_Some (idx2graph !! Z.of_nat (3 * k)) /\
     is_Some (idx2tree !! Z.of_nat (3 * k))) ->
  ABSADatasetReader.__read_data__ tokenizer lines idx2graph idx2tree h
    = Raise IndexError.
Proof.
  intros Hr Hlen Hgood.
  unfold ABSADatasetReader.__read_data__. rewrite range_by_threes.
  apply (read_records_failure n).
  - intros k Hk. split; [lia|]. now apply Hgood.
  - intros h'. unfold ABSADatasetReader.read_record.
    destruct (lookup_lt_is_Some_2 lines (3 * n)) as [s Hs]; [lia|].
    rewrite (getitem_lookup _ _ _ Hs). cbn [rbind].
    destruct (Str.partition s "$T$") as [[l m] rr].
    destruct Hr as [-> | ->].
    + rewrite getitem_outside by lia. reflexivity.
    + destruct (lookup_lt_is_Some_2 lines (3 * n + 1)) as [asp Hasp]; [lia|].
      replace (Z.of_nat (3 * n) + 1) with (Z.of_nat (3 * n + 1)) by lia.
      rewrite (getitem_lookup _ _ _ Hasp). cbn [rbind].
      rewrite getitem_outside by lia. reflexivity.
  - lia.
  - rewrite Hlen. destruct Hr as [-> | ->].
    + replace (3 * n + 1 + 2)%nat with (1 * 3 + n * 3)%nat by lia.
      rewrite Nat.div_add by lia. simpl. lia.
    + replace (3 * n + 2 + 2)%nat with (4 + n * 3)%nat by lia.
      rewrite Nat.div_add by lia. simpl. lia.
Qed.

Lemma count_covers (len n : nat) :
  (3 * n + 2 < len)%nat -> (n < 0 + (len + 2) / 3)%nat.
Proof.
  intros H. rewrite Nat.add_0_l.
  apply (Nat.lt_le_trans _ (S n)); [lia|].
  apply Nat.div_le_lower_bound; lia.
Qed.


(** A record whose first line number is not a key of the graph mapping,
    or not a key of the tree mapping, makes the reader raise [KeyError]
    (its polarity and the records before it being well formed). *)
Theorem read_data_missing_matrix (n : nat) (label : string) (p : Z) (h : heap) :
  (forall k : nat,
     (k < n)%nat ->
     (forall label, lines !! (3 * k + 2)%nat = Some label ->
                    exists p : Z, Str.int (trimmed label) = Ok p) /\
     is_Some (idx2graph !! Z.of_nat (3 * k)) /\
     is_Some (idx2tree !! Z.of_nat (3 * k))) ->
  lines !! (3 * n + 2)%nat = Some label ->
  Str.int (trimmed label) = Ok p ->
  idx2graph !! Z.of_nat (3 * n) = None \/ idx2tree !! Z.of_nat (3 * n) = None ->
  ABSADatasetReader.__read_data__ tokenizer lines idx2graph idx2tree h
    = Raise KeyError.
Proof.
  intros Hgood Hlab Hp Hmiss.
  pose proof (lookup_lt_Some _ _ _ Hlab) as Hlen.
  unfold ABSADatasetReader.__read_data__. rewrite range_by_threes.
  apply (read_records_failure n).
  - intros k Hk. split; [lia|]. now apply Hgood.
  - intros h'. unfold ABSADatasetReader.read_record.
    destruct (lookup_lt_is_Some_2 lines (3 * n)) as [s Hs]; [lia|].
    destruct (lookup_lt_is_Some_2 lines (3 * n + 1)) as [asp Hasp]; [lia|].
    rewrite (getitem_lookup _ _ _ Hs). cbn [rbind].
    destruct (Str.partition s "$T$") as [[l m] rr].
    replace (Z.of_nat (3 * n) + 1) with (Z.of_nat (3 * n + 1)) by lia.
    replace (Z.of_nat (3 * n) + 2) with (Z.of_nat (3 * n + 2)) by lia.
    rewrite (getitem_lookup _ _ _ Hasp), (getitem_lookup _ _ _ Hlab).
    cbn [rbind]. unfold alloc. fold (trimmed label). rewrite Hp.
    cbn [rbind]. unfold Py.dict_getitem.
    destruct (idx2graph !! Z.of_nat (3 * n)) as [g|]; [|reflexivity].
    cbn [rbind]. destruct Hmiss as [Hg|Ht]; [discriminate|].
    now rewrite Ht.
  - lia.
  - now apply count_covers.
Qed.

End ReaderErrors.

Lemma read_data_incomplete_record_witness :
  ABSADatasetReader.__read_data__ sample_tokenizer
    (sample_lines ++ ["nice $T$"]) sample_matrices sample_matrices []
  = Raise IndexError.
Proof.
  apply (read_data_incomplete_record sample_tokenizer
           (sample_lines ++ ["nice $T$"]) sample_matrices sample_matrices
           1 1 []).
  - left. reflexivity.
  - reflexivity.
  - intros k Hk. replace k with 0%nat by lia. split.
    + intros label [= <-]. exists 1. reflexivity.
    + split; exists (sample_matrix 3); reflexivity.
Defined.


Lemma read_data_missing_matrix_witness :
  ABSADatasetReader.__read_data__ sample_tokenizer sample_lines
    sample_matrices (∅ : gmap Z (ndarray Z)) [] = Raise KeyError.
Proof.
  apply (read_data_missing_matrix sample_tokenizer sample_lines
           sample_matrices ∅ 0 ("1" ++ newline)%string 1 []).
  - intros k Hk. lia.
  - reflexivity.
  - reflexivity.
  - right. reflexivity.
Defined.

Lemma NoDup_concat_member {A : Type} (ls : list (list A)) (l : list A) :
  NoDup (concat ls) -> l ∈ ls -> NoDup l.
Proof.
  induction ls as [|l0 ls IH]; intros Hnd Hin; [inversion Hin|].
  simpl in Hnd. apply NoDup_app in Hnd as (Hl0 & _ & Hrest).
  apply elem_of_cons in Hin as [->|Hin]; auto.
Qed.

Lemma sample_encoding_well_formed (ids : list Z) :
  well_formed_encoding (sample_encoding ids).
Proof.
  exists ids, (repeat 0 (length ids)), (repeat 1 (length ids)).
  unfold sample_encoding.
  split; [apply lookup_insert_eq|].
  split; [rewrite lookup_insert_ne by discriminate; apply lookup_insert_eq|].
  split; [rewrite !lookup_insert_ne by discriminate; apply lookup_insert_eq|].
  now rewrite !repeat_length.
Qed.

(** The examples that the reader returns are fit for padding: if the
    tokenizer makes well-formed encodings, then, whenever [__read_data__]
    returns, every example has its four encodings at four different
    places of the store, each holding three lists of one length, and no
    two examples share an encoding. *)
Theorem read_data_tokenized {scalar : Type} (tokenizer : string -> encoding)
    (lines : list string) (idx2graph idx2tree : gmap Z (ndarray scalar))
    (h : heap) :
  (forall text : string, well_formed_encoding (tokenizer text)) ->
  match ABSADatasetReader.__read_data__ tokenizer lines idx2graph idx2tree h with
  | Ok (data, h') =>
      NoDup (concat (map fields data)) /\
      Forall (fun t =>
                NoDup (fields t) /\
                Forall (fun l => exists ids mask, tokenized h' l ids mask)
                       (fields t))
             data
  | Raise _ => True
  end.
Proof.
  intros Htok.
  pose proof (read_data_store tokenizer lines idx2graph idx2tree h) as Hstore.
  destruct (ABSADatasetReader.__read_data__ _ _ _ _ _) as [[data h']|e];
    [|exact I].
  destruct Hstore as (_ & Hlocs & texts & Htexts & ->).
  assert (Hnd : NoDup (concat (map fields data)))
    by (rewrite Hlocs; apply NoDup_seq).
  split; [exact Hnd|].
  apply Forall_forall. intros t Ht.
  assert (Hmem : fields t ∈ map fields data)
    by (apply list_elem_of_fmap; eauto).
  split; [exact (NoDup_concat_member _ _ Hnd Hmem)|].
  apply Forall_forall. intros l Hl.
  assert (Hin : l ∈ concat (map fields data)).
  { apply list_elem_of_In, in_concat. exists (fields t).
    split; now apply list_elem_of_In. }
  rewrite Hlocs in Hin. apply elem_of_seq in Hin.
  destruct (lookup_lt_is_Some_2 (map tokenizer texts) (l - length h))
    as [enc Henc]; [rewrite length_map; lia|].
  pose proof Henc as Henc'.
  apply list_lookup_fmap_Some in Henc' as (text & -> & _).
  destruct (Htok text) as (ids & types & mask & Hi & Hty & Hm & L1 & L2).
  exists ids, mask, (tokenizer text), types.
  split; [|auto].
  rewrite lookup_app_r by lia. exact Henc.
Qed.

Lemma read_data_tokenized_witness :
  match ABSADatasetReader.__read_data__ sample_tokenizer sample_lines
          sample_matrices sample_matrices [] with
  | Ok (data, h') =>
      NoDup (concat (map fields data)) /\
      Forall (fun t =>
                NoDup (fields t) /\
                Forall (fun l => exists ids mask, tokenized h' l ids mask)
                       (fields t))
             data
  | Raise _ => True
  end.
Proof.
  apply (read_data_tokenized sample_tokenizer sample_lines sample_matrices
           sample_matrices []).
  intros text. apply sample_encoding_well_formed.
Defined.

(** Whenever the reader's constructor returns: the embedding matrix has
    one row of [embed_dim] numbers per vocabulary entry; each raw file
    had three lines per example; and the encodings of the training
    examples followed by those of the test examples are exactly the
    objects added to the store, each used once, so that the two datasets
    share no encoding. *)
Theorem reader_init_result {scalar number : Type}
    (tokenizer : string -> encoding) (zero : number)
    (float32 : string -> option number) (uniform : nat -> list number)
    (word_vec_file : list string) (vocab : list (string * Z))
    (embed_dim : nat)
    (dataset_train dataset_test : @ABSADatasetReader.files scalar) (h : heap) :
  match ABSADatasetReader.__init__ tokenizer zero float32 uniform word_vec_file
          vocab embed_dim dataset_train dataset_test h with
  | Ok (self, h') =>
      let train := ABSADataset.data (ABSADatasetReader.train_data self) in
      let test := ABSADataset.data (ABSADatasetReader.test_data self) in
      length (ABSADatasetReader.embedding_matrix self) = length vocab /\
      Forall (fun row => length row = embed_dim)
             (ABSADatasetReader.embedding_matrix self) /\
      (3 * length train)%nat = length (ABSADatasetReader.raw dataset_train) /\
      (3 * length test)%nat = length (ABSADatasetReader.raw dataset_test) /\
      concat (map fields (train ++ test)) =
        seq (length h) (4 * (length train + length test)) /\
      length h' = (length h + 4 * (length train + length test))%nat
  | Raise _ => True
  end.
Proof.
  destruct (ABSADatasetReader.__init__ _ _ _ _ _ _ _ _ _ _)
    as [[self h']|e] eqn:H; [|exact I].
  unfold ABSADatasetReader.__init__ in H.
  pose proof (build_embedding_matrix_shape zero float32 uniform word_vec_file
                vocab embed_dim) as Hshape.
  destruct (build_embedding_matrix _ _ _ _ _ _) as [m|e]; [|discriminate].
  cbn [rbind] in H.
  pose proof (read_data_store tokenizer (ABSADatasetReader.raw dataset_train)
                (ABSADatasetReader.graph dataset_train)
                (ABSADatasetReader.tree dataset_train) h) as Htrain.
  destruct (ABSADatasetReader.__read_data__ _ _ _ _ h) as [[train h1]|e];
    [|discriminate].
  cbn [rbind] in H.
  pose proof (read_data_store tokenizer (ABSADatasetReader.raw dataset_test)
                (ABSADatasetReader.graph dataset_test)
                (ABSADatasetReader.tree dataset_test) h1) as Htest.
  destruct (ABSADatasetReader.__read_data__ _ _ _ _ h1) as [[test h2]|e];
    [|discriminate].
  cbn [rbind] in H. injection H as <- <-. cbn zeta. simpl.
  destruct Hshape as [Hrows Hcols].
  destruct Htrain as (Hn1 & Hl1 & texts1 & Ht1 & ->).
  destruct Htest as (Hn2 & Hl2 & texts2 & Ht2 & ->).
  repeat (split; [assumption|]).
  split.
  - rewrite map_app, concat_app, Hl1, Hl2.
    rewrite length_app, length_map, Ht1.
    rewrite <- seq_app. f_equal. lia.
  - rewrite !length_app, !length_map. lia.
Qed.
